(** * Construction tracker: the store, the audit log, the allocation
      reconciler and the dashboard roll-ups of [index.py]

    The program is a Streamlit script over one Excel workbook.  Every run
    of the script loads five sheets and then serves one page; a page that
    received a form submission or a button click mutates the workbook
    through [write_sheet] / [append_row] and records the action with [log].

    Modelling choices, all of them about what lies outside [index.py]:
    - a pandas DataFrame is its list of column names and its list of rows,
      a row being a finite map from column name to cell (an absent key is a
      missing value, pandas' NaN);
    - a number is a binary64 float, as Python and pandas hold it; a missing
      value in a numeric column is the float nan, elsewhere [NaN], and
      [is_na] accepts both;
    - the workbook on disk is absent, unreadable, or a finite map from sheet
      name to the cells stored: [to_excel] leaves the cell of a missing value
      and of the empty string empty, and [read_excel] reads an empty cell, and
      a text cell holding one of pandas' NA markers, as a missing value
      (infinite numbers and the typing of whole columns are not modelled);
    - Python's [repr] of a float and the summation pandas uses for a group
      are operations of the environment, the class [Library];
    - [FileLock] succeeds or times out as the environment decides: the world
      carries the outcomes of the coming acquisitions;
    - [uuid4] and [datetime.utcnow] read a counter and a clock of the world;
    - the sign-in form and the receipt upload are presentation: the signed-in
      user is a field of the world and a receipt is the name of its file;
    - a page is modelled from the submission on: what a form offers (the
      select boxes built from the engineers and sites tables) is not, the
      choices made are inputs of the request;
    - the world also keeps a journal of the [write_sheet] calls, a ghost
      field used only to state in which order writes were issued. *)

From Stdlib Require Import Ascii String List Lia Floats.
From stdpp Require Import base option list gmap strings pretty.

#[local] Set Warnings "-inexact-float".
Open Scope string_scope.

(** Equality of two floats as values of the kernel, bit for bit. *)
Global Instance float_eq_dec : EqDecision float.
Proof.
  intros x y. destruct (PrimFloat.Leibniz.eqb x y) eqn:E; [left | right].
  - by apply FloatAxioms.Leibniz.eqb_spec.
  - intros H. apply FloatAxioms.Leibniz.eqb_spec in H. congruence.
Defined.

(** ** Cells and rows *)

Inductive cell :=
  | NaN
  | Str (s : string)
  | Num (x : float)
  | Bool (b : bool).

Global Instance cell_eq_dec : EqDecision cell.
Proof. solve_decision. Defined.

Global Instance cell_inhabited : Inhabited cell := populate NaN.

(** Python's [True] is the number 1, [False] the number 0. *)
Definition as_number (c : cell) : option float :=
  match c with
  | Num x => Some x
  | Bool b => Some (if b then 1%float else 0%float)
  | _ => None
  end.

(** [pd.isna] *)
Definition is_na (c : cell) : bool :=
  match c with
  | NaN => true
  | Num x => PrimFloat.is_nan x
  | _ => false
  end.

(** Python's [==] on two cells, as pandas applies it element by element. *)
Definition py_eq (a b : cell) : bool :=
  match a, b with
  | Str s, Str t => bool_decide (s = t)
  | _, _ =>
      match as_number a, as_number b with
      | Some x, Some y => PrimFloat.eqb x y
      | _, _ => false
      end
  end.

Definition py_ne (a b : cell) : bool := negb (py_eq a b).

Inductive exn :=
  | KeyError (key : string)
  | TypeError
  | BadZipFile.

Inductive Result (A : Type) :=
  | Ok (a : A)
  | Raise (e : exn).
Arguments Ok {A} a.
Arguments Raise {A} e.

Global Instance Result_ret : MRet Result := λ A a, Ok a.
Global Instance Result_bind : MBind Result := λ A B f r,
  match r with
  | Ok a => f a
  | Raise e => Raise e
  end.

Fixpoint mapR {A B} (f : A → Result B) (l : list A) : Result (list B) :=
  match l with
  | [] => Ok []
  | x :: l' => y ← f x; ys ← mapR f l'; Ok (y :: ys)
  end.

(** [c > 0]: a missing value compares false, a string cannot be compared. *)
Definition py_gt0 (c : cell) : Result bool :=
  match c with
  | NaN => Ok false
  | Str _ => Raise TypeError
  | _ => Ok (PrimFloat.ltb 0 (default 0%float (as_number c)))
  end.

(** [c - amount] *)
Definition py_sub (c : cell) (amount : float) : Result cell :=
  match c with
  | NaN => Ok NaN
  | Str _ => Raise TypeError
  | _ => Ok (Num (default 0%float (as_number c) - amount)%float)
  end.

(** A Python dict literal: keys in the order they are written. *)
Definition dict := list (string * cell).

Definition get (r : gmap string cell) (c : string) : cell := default NaN (r !! c).

(** ** DataFrames *)

Record DataFrame := { columns : list string; rows : list (gmap string cell) }.

Global Instance DataFrame_eq_dec : EqDecision DataFrame.
Proof. solve_decision. Defined.

(** [pd.DataFrame()] *)
Definition empty_frame : DataFrame := {| columns := []; rows := [] |}.

(** [pd.DataFrame(columns=cols)] *)
Definition header_only (cols : list string) : DataFrame :=
  {| columns := cols; rows := [] |}.

(** [df.empty] *)
Definition is_empty (df : DataFrame) : bool :=
  match columns df, rows df with
  | [], _ | _, [] => true
  | _, _ => false
  end.

Definition has_column (df : DataFrame) (c : string) : bool :=
  bool_decide (c ∈ columns df).

Definition require (df : DataFrame) (c : string) : Result unit :=
  if has_column df c then Ok tt else Raise (KeyError c).

Fixpoint require_all (df : DataFrame) (cs : list string) : Result unit :=
  match cs with
  | [] => Ok tt
  | c :: cs' => require df c;; require_all df cs'
  end.

(** [df[c]] *)
Definition col (df : DataFrame) (c : string) : Result (list cell) :=
  require df c;; Ok ((λ r, get r c) <$> rows df).

(** [df.at[idx, c]] *)
Definition at_ (df : DataFrame) (idx : nat) (c : string) : Result cell :=
  require df c;;
  match rows df !! idx with
  | Some r => Ok (get r c)
  | None => Raise (KeyError c)
  end.

(** [df.at[idx, c] = v] *)
Definition set_at (df : DataFrame) (idx : nat) (c : string) (v : cell) : DataFrame :=
  {| columns := columns df; rows := alter (<[c := v]>) idx (rows df) |}.

(** [df.loc[df[key] == k, c] = v] *)
Definition set_where (df : DataFrame) (key : string) (k : cell) (c : string) (v : cell)
  : Result DataFrame :=
  require df key;;
  Ok {| columns := if has_column df c then columns df else columns df ++ [c];
        rows := (λ r, if py_eq (get r key) k then <[c := v]> r else r) <$> rows df |}.

(** [pd.concat([df, pd.DataFrame([row])], ignore_index=True)]: the columns of
    [df] keep their order, the keys of [row] that [df] lacks follow. *)
Definition concat_row (df : DataFrame) (row : dict) : DataFrame :=
  {| columns := columns df ++ list_difference (row.*1) (columns df);
     rows := rows df ++ [list_to_map row] |}.

(** ** The workbook and the world around the script *)

(** The text pandas reads as a missing value ([STR_NA_VALUES]). *)
Definition na_values : list string :=
  [ ""; "#N/A"; "#N/A N/A"; "#NA"; "-1.#IND"; "-1.#QNAN"; "-NaN"; "-nan"; "1.#IND";
    "1.#QNAN"; "<NA>"; "N/A"; "NA"; "NULL"; "NaN"; "None"; "n/a"; "nan"; "null" ].

(** What [to_excel] puts in a cell: nothing for a missing value, and nothing
    for the empty string. *)
Definition written (c : cell) : cell :=
  match c with
  | Str s => if decide (s = "") then NaN else c
  | _ => c
  end.

(** What [read_excel] makes of a cell: an empty cell is a missing value, and
    so is a text cell that holds one of [na_values]. *)
Definition parsed (c : cell) : cell :=
  match c with
  | Str s => if bool_decide (s ∈ na_values) then NaN else c
  | _ => c
  end.

Definition to_sheet (df : DataFrame) : DataFrame :=
  {| columns := columns df; rows := (λ r : gmap string cell, written <$> r) <$> rows df |}.

Definition from_sheet (df : DataFrame) : DataFrame :=
  {| columns := columns df; rows := (λ r : gmap string cell, parsed <$> r) <$> rows df |}.

Inductive document :=
  | Missing
  | Corrupt
  | Workbook (sheets : gmap string DataFrame).     (* the cells as stored *)

Definition schema : list (string * list string) :=
  [ ("companies", ["company_id"; "company_name"; "address"; "phone"]);
    ("engineers", ["engineer_id"; "name"; "role"; "phone"; "email"; "active"]);
    ("sites", ["site_id"; "site_name"; "location"; "start_date"; "end_date"; "status"]);
    ("assignments", ["assignment_id"; "engineer_id"; "site_id"; "assigned_by";
                     "assigned_on"; "is_active"]);
    ("fund_allocations", ["allocation_id"; "engineer_id"; "site_id"; "amount_allocated";
                          "date_allocated"; "balance_remaining"; "notes"]);
    ("expenses", ["expense_id"; "site_id"; "engineer_id"; "expense_type"; "amount"; "date";
                  "payment_mode"; "receipt_path"; "approved_by"; "approved"; "notes"]);
    ("audit_log", ["log_id"; "action"; "object_type"; "object_id"; "user"; "timestamp";
                   "details"]) ].

Definition initial_sheets : gmap string DataFrame :=
  list_to_map (prod_map id header_only <$> schema).

Inductive outcome := Committed | Busy | Broken.

(** One call of [write_sheet], as the journal remembers it. *)
Record write_call := { target : string; payload : DataFrame; result : outcome }.

Inductive widget :=
  | Error (s : string)
  | Success (s : string)
  | Info (s : string)
  | Warning (s : string)
  | Table (df : DataFrame)
  | Download (file_name : string) (df : DataFrame).

Record World := {
  file : document;            (* construction_data.xlsx *)
  lock_held : bool;           (* this process holds construction_data.xlsx.lock *)
  lock_oracle : list bool;    (* coming acquisitions: false = Timeout; none left = free *)
  uuid_seed : nat;
  utc_clock : N;
  session_user : cell;        (* st.session_state.user *)
  screen : list widget;
  journal : list write_call
}.

Definition set_file (d : document) (w : World) : World :=
  {| file := d; lock_held := lock_held w; lock_oracle := lock_oracle w;
     uuid_seed := uuid_seed w; utc_clock := utc_clock w; session_user := session_user w;
     screen := screen w; journal := journal w |}.

Definition set_lock (held : bool) (oracle : list bool) (w : World) : World :=
  {| file := file w; lock_held := held; lock_oracle := oracle;
     uuid_seed := uuid_seed w; utc_clock := utc_clock w; session_user := session_user w;
     screen := screen w; journal := journal w |}.

Definition set_seed (n : nat) (w : World) : World :=
  {| file := file w; lock_held := lock_held w; lock_oracle := lock_oracle w;
     uuid_seed := n; utc_clock := utc_clock w; session_user := session_user w;
     screen := screen w; journal := journal w |}.

Definition show (x : widget) (w : World) : World :=
  {| file := file w; lock_held := lock_held w; lock_oracle := lock_oracle w;
     uuid_seed := uuid_seed w; utc_clock := utc_clock w; session_user := session_user w;
     screen := screen w ++ [x]; journal := journal w |}.

Definition record_call (c : write_call) (w : World) : World :=
  {| file := file w; lock_held := lock_held w; lock_oracle := lock_oracle w;
     uuid_seed := uuid_seed w; utc_clock := utc_clock w; session_user := session_user w;
     screen := screen w; journal := journal w ++ [c] |}.

(** ** The script monad: a world, and an exception that may escape *)

Definition M (A : Type) : Type := World → Result A * World.

Global Instance M_ret : MRet M := λ A a w, (Ok a, w).
Global Instance M_bind : MBind M := λ A B f m w,
  match m w with
  | (Ok a, w') => f a w'
  | (Raise e, w') => (Raise e, w')
  end.

Definition lift {A} (r : Result A) : M A := λ w, (r, w).
Definition st (x : widget) : M unit := λ w, (Ok tt, show x w).
Definition current_user : M cell := λ w, (Ok (session_user w), w).

(** [try: body finally: fin] *)
Definition try_finally {A} (body : M A) (fin : World → World) : M A := λ w,
  let '(r, w') := body w in (r, fin w').

Definition uuid_of (n : nat) : string := "uuid-" +:+ pretty n.

(** [str(uuid4())] *)
Definition uuid4 : M string := λ w, (Ok (uuid_of (uuid_seed w)), set_seed (S (uuid_seed w)) w).

Definition isoformat (t : N) : string := "T" +:+ pretty t.
Definition date_isoformat (t : N) : string := "D" +:+ pretty (t `div` 86400)%N.

(** [datetime.utcnow().isoformat()] and [datetime.utcnow().date().isoformat()] *)
Definition utcnow : M string := λ w, (Ok (isoformat (utc_clock w)), w).
Definition utctoday : M string := λ w, (Ok (date_isoformat (utc_clock w)), w).

(** What the libraries compute and this development leaves open: Python's
    [repr] of a float, and the sum pandas returns for the numbers of one
    group, taken in table order. *)
Class Library := {
  repr_float : float → string;
  sum_floats : list float → float
}.

Section Model.
Context `{lib : Library}.

(** [str(d)] of a dict. *)
Definition repr_cell (c : cell) : string :=
  match c with
  | NaN => "None"
  | Str s => "'" +:+ s +:+ "'"
  | Num x => repr_float x
  | Bool true => "True"
  | Bool false => "False"
  end.

Fixpoint repr_items (d : dict) : string :=
  match d with
  | [] => ""
  | [(k, v)] => "'" +:+ k +:+ "': " +:+ repr_cell v
  | (k, v) :: d' => "'" +:+ k +:+ "': " +:+ repr_cell v +:+ ", " +:+ repr_items d'
  end.

Definition str_dict (d : dict) : string := "{" +:+ repr_items d +:+ "}".

(** ** Store *)

Definition ensure_workbook : M unit := λ w,
  match file w with
  | Missing => (Ok tt, set_file (Workbook initial_sheets) w)
  | _ => (Ok tt, w)
  end.

(** [pd.read_excel(DATA_FILE, sheet_name=...)]: any failure is an exception
    that [read_sheet] catches. *)
Definition read_excel (sheet_name : string) (d : document) : option DataFrame :=
  match d with
  | Workbook sheets => from_sheet <$> sheets !! sheet_name
  | _ => None
  end.

Definition read_or_empty (sheet_name : string) : M DataFrame := λ w,
  (Ok (default empty_frame (read_excel sheet_name (file w))), w).

Definition read_sheet (sheet_name : string) : M DataFrame :=
  ensure_workbook;; read_or_empty sheet_name.

(** [FileLock.__enter__]: [true] when acquired, [false] on [Timeout]. *)
Definition acquire : M bool := λ w,
  match lock_oracle w with
  | false :: rest => (Ok false, set_lock (lock_held w) rest w)
  | oracle => (Ok true, set_lock true (tail oracle) w)
  end.

(** [FileLock.__exit__] *)
Definition release (w : World) : World := set_lock false (lock_oracle w) w.

(** [with pd.ExcelWriter(DATA_FILE, mode="a", if_sheet_exists="replace")]:
    the named sheet is replaced, the other sheets stay. *)
Definition to_excel (sheet_name : string) (df : DataFrame) : M unit := λ w,
  match file w with
  | Workbook sheets =>
      (Ok tt, record_call {| target := sheet_name; payload := df; result := Committed |}
                (set_file (Workbook (<[sheet_name := to_sheet df]> sheets)) w))
  | _ =>
      (Raise BadZipFile,
       record_call {| target := sheet_name; payload := df; result := Broken |} w)
  end.

Definition lock_message : string :=
  "Could not acquire lock to write data. Try again in a few seconds.".

Definition note_busy (sheet_name : string) (df : DataFrame) : M unit := λ w,
  (Ok tt, record_call {| target := sheet_name; payload := df; result := Busy |} w).

Definition write_sheet (sheet_name : string) (df : DataFrame) : M unit :=
  ensure_workbook;;
  acquired ← acquire;
  if (acquired : bool) then try_finally (to_excel sheet_name df) release
  else note_busy sheet_name df;; st (Error lock_message).

Definition append_row (sheet_name : string) (row_dict : dict) : M unit :=
  df ← read_sheet sheet_name;
  write_sheet sheet_name (concat_row df row_dict).

(** ** Audit log *)

Definition audit_row (log_id action object_type : string) (object_id user : cell)
    (timestamp details : string) : dict :=
  [ ("log_id", Str log_id); ("action", Str action); ("object_type", Str object_type);
    ("object_id", object_id); ("user", user); ("timestamp", Str timestamp);
    ("details", Str details) ].

Definition log (action object_type : string) (object_id user : cell) (details : string)
  : M unit :=
  log_id ← uuid4;
  timestamp ← utcnow;
  append_row "audit_log" (audit_row log_id action object_type object_id user timestamp details).

(** ** Aggregation helpers of the dashboard (pandas [groupby], [merge],
       [fillna], column selection) *)

(** The numbers ["sum"] adds up: missing values are skipped, text cannot be
    added. *)
Fixpoint summands (l : list cell) : Result (list float) :=
  match l with
  | [] => Ok []
  | c :: l' =>
      if is_na c then summands l'
      else match as_number c with
           | Some x => xs ← summands l'; Ok (x :: xs)
           | None => Raise TypeError
           end
  end.

(** The sum of a group: zero when it has no number at all. *)
Definition group_sum (xs : list float) : float :=
  match xs with
  | [] => 0%float
  | _ => sum_floats xs
  end.

(** The group keys: missing keys are dropped. *)
Definition group_keys (df : DataFrame) (key : string) : list cell :=
  remove_dups (filter (λ c, is_na c = false) ((λ r, get r key) <$> rows df)).

Definition agg_sum (df : DataFrame) (key : string) (k : cell) (agg : string * string)
  : Result (string * cell) :=
  xs ← summands ((λ r, get r agg.2) <$> filter (λ r, get r key = k) (rows df));
  Ok (agg.1, Num (group_sum xs)).

(** [df.groupby(key, as_index=False).agg(out=(column, "sum"), ...)] *)
Definition groupby_sum (df : DataFrame) (key : string) (aggs : list (string * string))
  : Result DataFrame :=
  require df key;;
  require_all df (aggs.*2);;
  groups ← mapR (λ k, sums ← mapR (agg_sum df key k) aggs;
                      Ok (list_to_map ((key, k) :: sums) : gmap string cell))
                (group_keys df key);
  Ok {| columns := key :: aggs.*1; rows := groups |}.

(** [left.merge(right, how="left", on=key)].  A column that both frames
    carry besides the key, which pandas would rename with the suffixes _x and
    _y, is kept under its one name here, the left row's cell first. *)
Definition merge_left (left right : DataFrame) (key : string) : Result DataFrame :=
  require right key;;
  require left key;;
  Ok {| columns := columns left ++ filter (λ c, c ≠ key) (columns right);
        rows := r ← rows left;
                match filter (λ q, get q key = get r key) (rows right) with
                | [] => [r]
                | matches => (λ q, r ∪ delete key q) <$> matches
                end |}.

(** [df[c] = df[c].fillna(v)] *)
Definition fillna (df : DataFrame) (c : string) (v : cell) : Result DataFrame :=
  require df c;;
  Ok {| columns := columns df;
        rows := (λ r, if is_na (get r c) then <[c := v]> r else r) <$> rows df |}.

(** [df[[c1, ..., cn]]] *)
Definition select (df : DataFrame) (cs : list string) : Result DataFrame :=
  require_all df cs;;
  Ok {| columns := cs;
        rows := (λ r, filter (λ kv, kv.1 ∈ cs) r) <$> rows df |}.

(** The five frames every run of the script loads before it serves a page. *)
Record Frames := {
  engineers_df : DataFrame;
  sites_df : DataFrame;
  alloc_df : DataFrame;
  assign_df : DataFrame;
  expenses_df : DataFrame
}.

Definition load_frames : M Frames :=
  engineers ← read_sheet "engineers";
  sites ← read_sheet "sites";
  alloc ← read_sheet "fund_allocations";
  assign ← read_sheet "assignments";
  expenses ← read_sheet "expenses";
  mret {| engineers_df := engineers; sites_df := sites; alloc_df := alloc;
          assign_df := assign; expenses_df := expenses |}.

(** ** Dashboard *)

Definition site_summary_view (fr : Frames) : Result DataFrame :=
  site_summary ← groupby_sum (expenses_df fr) "site_id" [("total_spent", "amount")];
  merged ← merge_left (sites_df fr) site_summary "site_id";
  merged ← fillna merged "total_spent" (Num 0%float);
  select merged ["site_id"; "site_name"; "location"; "status"; "total_spent"].

Definition engineer_summary_view (fr : Frames) : Result DataFrame :=
  eng_spent ← groupby_sum (expenses_df fr) "engineer_id" [("total_spent", "amount")];
  eng_alloc ← groupby_sum (alloc_df fr) "engineer_id"
                [("total_alloc", "amount_allocated"); ("balance", "balance_remaining")];
  eng_merged ← merge_left (engineers_df fr) eng_spent "engineer_id";
  eng_merged ← merge_left eng_merged eng_alloc "engineer_id";
  eng_merged ← fillna eng_merged "total_spent" (Num 0%float);
  eng_merged ← fillna eng_merged "total_alloc" (Num 0%float);
  eng_merged ← fillna eng_merged "balance" (Num 0%float);
  select eng_merged ["engineer_id"; "name"; "role"; "total_alloc"; "total_spent"; "balance"].

Definition page_dashboard (fr : Frames) : M unit :=
  site_table ← lift (site_summary_view fr);
  st (Table site_table);;
  engineer_table ← lift (engineer_summary_view fr);
  st (Table engineer_table).

(** ** Allocate Funds, Assign Engineer *)

Definition allocation_row (allocation_id : string) (eng_choice site_choice : cell)
    (amount : float) (today notes : string) : dict :=
  [ ("allocation_id", Str allocation_id); ("engineer_id", eng_choice);
    ("site_id", site_choice); ("amount_allocated", Num amount);
    ("date_allocated", Str today); ("balance_remaining", Num amount);
    ("notes", Str notes) ].

Definition page_allocate (eng_choice site_choice : cell) (amount : float) (notes : string)
  : M unit :=
  allocation_id ← uuid4;
  today ← utctoday;
  let row := allocation_row allocation_id eng_choice site_choice amount today notes in
  append_row "fund_allocations" row;;
  user ← current_user;
  log "allocate_funds" "fund_allocations" (Str allocation_id) user (str_dict row);;
  st (Success "Funds allocated").

Definition page_assign (eng_choice site_choice : cell) (assigned_by : cell) : M unit :=
  assignment_id ← uuid4;
  today ← utctoday;
  let row := [ ("assignment_id", Str assignment_id); ("engineer_id", eng_choice);
               ("site_id", site_choice); ("assigned_by", assigned_by);
               ("assigned_on", Str today); ("is_active", Bool true) ] in
  append_row "assignments" row;;
  user ← current_user;
  log "assign_engineer" "assignments" (Str assignment_id) user (str_dict row);;
  st (Success "Engineer assigned").

(** ** Record Expense and the allocation reconciler *)

Record expense_form := {
  site_choice : cell;
  eng_choice : cell;
  exp_type : string;
  amount : float;
  date : string;
  payment_mode : string;
  receipt : option string;     (* the uploaded file's name *)
  notes : string
}.

Definition expense_row (expense_id : string) (f : expense_form) : dict :=
  let receipt_path :=
    match receipt f with
    | Some name => "uploads/" +:+ expense_id +:+ "_" +:+ name
    | None => ""
    end in
  [ ("expense_id", Str expense_id); ("site_id", site_choice f);
    ("engineer_id", eng_choice f); ("expense_type", Str (exp_type f));
    ("amount", Num (amount f)); ("date", Str (date f));
    ("payment_mode", Str (payment_mode f)); ("receipt_path", Str receipt_path);
    ("approved_by", Str ""); ("approved", Bool false); ("notes", Str (notes f)) ].

(** One entry of [mask], line 206. *)
Definition candidate (eng site : cell) (r : gmap string cell) : Result bool :=
  positive ← py_gt0 (get r "balance_remaining");
  Ok (py_eq (get r "engineer_id") eng && py_eq (get r "site_id") site && positive).

Definition alloc_mask (df : DataFrame) (eng site : cell) : Result (list bool) :=
  require_all df ["engineer_id"; "site_id"; "balance_remaining"];;
  mapR (candidate eng site) (rows df).

(** Lines 207-208: the label of the first selected row, if any row is. *)
Definition first_fit (df : DataFrame) (eng site : cell) : Result (option nat) :=
  mask ← alloc_mask df eng site;
  Ok (fst <$> list_find (λ b : bool, b = true) mask).

(** Lines 206-209: [None] when no row is selected, else the frame with the
    first selected row debited. *)
Definition reconcile (df : DataFrame) (eng site : cell) (amount : float)
  : Result (option DataFrame) :=
  selected ← first_fit df eng site;
  match selected with
  | Some idx =>
      balance ← at_ df idx "balance_remaining";
      debited ← py_sub balance amount;
      Ok (Some (set_at df idx "balance_remaining" debited))
  | None => Ok None
  end.

Definition page_expense (f : expense_form) : M unit :=
  expense_id ← uuid4;
  let row := expense_row expense_id f in
  append_row "expenses" row;;
  alloc ← read_sheet "fund_allocations";
  debited ← lift (reconcile alloc (eng_choice f) (site_choice f) (amount f));
  match debited with
  | Some alloc' => write_sheet "fund_allocations" alloc'
  | None => mret tt
  end;;
  user ← current_user;
  log "create_expense" "expenses" (Str expense_id) user (str_dict row);;
  st (Success "Expense recorded (pending approval)").

(** ** Approvals *)

(** [expenses_df[expenses_df["approved"]!=True] if not expenses_df.empty
     else pd.DataFrame()] *)
Definition pending (expenses : DataFrame) : Result DataFrame :=
  if is_empty expenses then Ok empty_frame
  else
    require expenses "approved";;
    Ok {| columns := columns expenses;
          rows := filter (λ r, py_ne (get r "approved") (Bool true) = true)
                         (rows expenses) |}.

(** Lines 229-230 and 236-237. *)
Definition decide_expense (expenses : DataFrame) (expense_id : cell) (approve : bool)
    (user : cell) : Result DataFrame :=
  marked ← set_where expenses "expense_id" expense_id "approved" (Bool approve);
  set_where marked "expense_id" expense_id "approved_by" user.

(** The page lists the pending rows, newest date first, each with an Approve
    and a Reject button; [click] is the button pressed in this run, if any:
    its kind and the position, in table order, of its row among the pending
    rows.  The run ends at [st.experimental_rerun()]. *)
Definition page_approvals (expenses : DataFrame) (click : option (bool * nat)) : M unit :=
  todo ← lift (pending expenses);
  if is_empty todo then st (Info "No pending expenses")
  else
    lift (require_all todo ["date"; "expense_id"; "site_id"; "engineer_id"; "amount"]);;
    match click with
    | None => mret tt
    | Some (approve, k) =>
        match rows todo !! k with
        | None => mret tt
        | Some r =>
            user ← current_user;
            expenses' ← lift (decide_expense expenses (get r "expense_id") approve user);
            write_sheet "expenses" expenses';;
            if approve
            then log "approve_expense" "expenses" (get r "expense_id") user "approved";;
                 st (Success "Approved")
            else log "reject_expense" "expenses" (get r "expense_id") user "rejected";;
                 st (Warning "Marked as reviewed (not approved)")
        end
    end.

(** ** Admin *)

Definition page_add_engineer (ename ephone eemail erole : string) : M unit :=
  new_id ← uuid4;
  append_row "engineers"
    [ ("engineer_id", Str new_id); ("name", Str ename); ("role", Str erole);
      ("phone", Str ephone); ("email", Str eemail); ("active", Bool true) ];;
  user ← current_user;
  log "create_engineer" "engineers" (Str new_id) user ename;;
  st (Success "Engineer added").

Definition page_add_site (sname slocation sstart : string) : M unit :=
  sid ← uuid4;
  append_row "sites"
    [ ("site_id", Str sid); ("site_name", Str sname); ("location", Str slocation);
      ("start_date", Str sstart); ("end_date", Str ""); ("status", Str "Ongoing") ];;
  user ← current_user;
  log "create_site" "sites" (Str sid) user sname;;
  st (Success "Site added").

(** ** Export *)

(** Each sheet is read and offered for download as [<sheet>.csv]; the frame
    stands for its CSV text. *)
Fixpoint page_export (sheets : list string) : M unit :=
  match sheets with
  | [] => mret tt
  | s :: rest => df ← read_sheet s; st (Download (s +:+ ".csv") df);; page_export rest
  end.

(** ** One run of the script *)

Inductive request :=
  | Dashboard
  | AllocateFunds (eng_choice site_choice : cell) (amount : float) (notes : string)
  | AssignEngineer (eng_choice site_choice assigned_by : cell)
  | RecordExpense (f : expense_form)
  | Approvals (click : option (bool * nat))
  | AddEngineer (ename ephone eemail erole : string)
  | AddSite (sname slocation sstart : string)
  | Export
  | Idle.                       (* a form page shown, nothing submitted *)

Definition script (rq : request) : M unit :=
  fr ← load_frames;
  match rq with
  | Dashboard => page_dashboard fr
  | AllocateFunds e s a n => page_allocate e s a n
  | AssignEngineer e s by_ => page_assign e s by_
  | RecordExpense f => page_expense f
  | Approvals click => page_approvals (expenses_df fr) click
  | AddEngineer n p e r => page_add_engineer n p e r
  | AddSite n l s => page_add_site n l s
  | Export => page_export schema.*1
  | Idle => mret tt
  end.

(** Successive runs; an uncaught exception ends one run, not the session. *)
Fixpoint session (rqs : list request) (w : World) : World :=
  match rqs with
  | [] => w
  | rq :: rest => session rest (script rq w).2
  end.

(** ** What a reader of the workbook sees *)

(** The document once [ensure_workbook] has run. *)
Definition initialized (d : document) : document :=
  match d with
  | Missing => Workbook initial_sheets
  | _ => d
  end.

(** The frame [read_sheet] would return in world [w]. *)
Definition peek (sheet_name : string) (w : World) : DataFrame :=
  default empty_frame (read_excel sheet_name (initialized (file w))).

(** A table that is absent or unreadable: no document, a document that does
    not open, or a workbook without that sheet. *)
Definition unreadable (sheet_name : string) (d : document) : Prop :=
  match d with
  | Workbook sheets => sheets !! sheet_name = None
  | _ => True
  end.

(** What a value reads as once it has been through the workbook: text that
    pandas takes for a missing value is lost, everything else is kept. *)
Definition read_back (c : cell) : cell :=
  match c with
  | Str s => if bool_decide (s ∈ na_values) then NaN else c
  | _ => c
  end.

(** A frame as it reads once it has been through the workbook. *)
Definition stored (df : DataFrame) : DataFrame :=
  {| columns := columns df; rows := (λ r : gmap string cell, read_back <$> r) <$> rows df |}.

(** The row carries the expense [expense_id] as the form gave it, not yet
    approved and with no approver: what a reader finds in a row of the
    expenses table for a new expense. *)
Definition records (created : gmap string cell) (expense_id : string) (f : expense_form)
  : Prop :=
  get created "expense_id" = Str expense_id ∧
  get created "site_id" = read_back (site_choice f) ∧
  get created "engineer_id" = read_back (eng_choice f) ∧
  get created "expense_type" = read_back (Str (exp_type f)) ∧
  get created "amount" = Num (amount f) ∧
  get created "date" = read_back (Str (date f)) ∧
  get created "payment_mode" = read_back (Str (payment_mode f)) ∧
  get created "notes" = read_back (Str (notes f)) ∧
  get created "approved" = Bool false ∧ get created "approved_by" = NaN.

(** The balance of an allocation row, when the cell holds a number. *)
Definition balance_of (r : gmap string cell) : option float :=
  match get r "balance_remaining" with
  | Num b => Some b
  | _ => None
  end.

(** A fund_allocations frame as the schema has it: the three columns the
    reconciler reads are there and every balance is a number. *)
Definition allocations_ok (df : DataFrame) : Prop :=
  ["engineer_id"; "site_id"; "balance_remaining"] ⊆ columns df ∧
  Forall (λ r, is_Some (balance_of r)) (rows df).

(** The row is for this engineer and this site and has money left. *)
Definition matches (f : expense_form) (r : gmap string cell) : Prop :=
  py_eq (get r "engineer_id") (eng_choice f) = true ∧
  py_eq (get r "site_id") (site_choice f) = true ∧
  ∃ b, balance_of r = Some b ∧ (0 <? b)%float = true.

(** [matches] as a test. *)
Definition is_match (f : expense_form) (r : gmap string cell) : bool :=
  py_eq (get r "engineer_id") (eng_choice f) && py_eq (get r "site_id") (site_choice f)
  && match balance_of r with
     | Some b => (0 <? b)%float
     | None => false
     end.

(** First fit, in the words of the specification: the first row in table
    order that matches the expense, with its position. *)
Definition first_match (alloc : DataFrame) (f : expense_form)
  : option (nat * gmap string cell) :=
  list_find (λ r, is_match f r = true) (rows alloc).

(** The allocation table once the expense was debited from its first match:
    the full amount is taken, whatever the balance. *)
Definition debit (alloc : DataFrame) (f : expense_form) : DataFrame :=
  match first_match alloc f with
  | Some (idx, r) =>
      {| columns := columns alloc;
         rows := alter (<["balance_remaining" :=
                            Num (default 0%float (balance_of r) - amount f)%float]>)
                       idx (rows alloc) |}
  | None => alloc
  end.

(** The amounts routed to row [idx] over a run of expenses, oldest first. *)
Fixpoint debits_routed (alloc : DataFrame) (fs : list expense_form) (idx : nat)
  : list float :=
  match fs with
  | [] => []
  | f :: fs' =>
      (match first_match alloc f with
       | Some (i, _) => if decide (i = idx) then [amount f] else []
       | None => []
       end) ++ debits_routed (debit alloc f) fs' idx
  end.

(** A balance after the amounts were subtracted from it one after the other. *)
Definition debited (b : float) (amounts : list float) : float :=
  foldl PrimFloat.sub b amounts.

(** The sum of the amounts, added up one after the other. *)
Definition added (amounts : list float) : float :=
  foldl PrimFloat.add 0%float amounts.

Global Instance allocations_ok_dec (df : DataFrame) : Decision (allocations_ok df).
Proof. unfold allocations_ok. apply _. Defined.

Definition sheets_of (d : document) : gmap string DataFrame :=
  match d with
  | Workbook sheets => sheets
  | _ => ∅
  end.

(** The expenses rows after lines 229-230 or 236-237 ran for [expense_id]. *)
Definition decided_rows (expenses : DataFrame) (expense_id : cell) (approve : bool)
    (user : cell) : list (gmap string cell) :=
  (λ q, if py_eq (get q "expense_id") expense_id
        then <["approved_by" := user]> (<["approved" := Bool approve]> q)
        else q) <$> rows expenses.

(** Another user signs in. *)
Definition set_user (u : cell) (w : World) : World :=
  {| file := file w; lock_held := lock_held w; lock_oracle := lock_oracle w;
     uuid_seed := uuid_seed w; utc_clock := utc_clock w; session_user := u;
     screen := screen w; journal := journal w |}.

(** [m] changes no table outside [tables] and issues writes to [tables] only. *)
Definition touches_only {A} (tables : list string) (m : M A) : Prop :=
  ∀ w, (∀ name, name ∉ tables → peek name (m w).2 = peek name w) ∧
       ∃ calls, journal (m w).2 = (journal w ++ calls)%list ∧
                Forall (λ c, target c ∈ tables) calls.

(** The requests that change a table, each with what its page needs to run
    to its end: the reconciler a fund_allocations frame it can read, the
    Approvals page a click on a listed expense. *)
Definition mutating (rq : request) (w : World) : Prop :=
  match rq with
  | AllocateFunds _ _ _ _ | AssignEngineer _ _ _ | AddEngineer _ _ _ _ | AddSite _ _ _ => True
  | RecordExpense f => allocations_ok (peek "fund_allocations" w)
  | Approvals (Some (approve, k)) =>
      ["date"; "expense_id"; "site_id"; "engineer_id"; "amount"]
        ⊆ columns (peek "expenses" w) ∧
      ∃ todo r, pending (peek "expenses" w) = Ok todo ∧ rows todo !! k = Some r
  | _ => False
  end.

(** No row of [df] carries a cell under any of the names [cs]. *)
Definition lacks (df : DataFrame) (cs : list string) : Prop :=
  Forall (λ r : gmap string cell, Forall (λ c, r !! c = None) cs) (rows df).

(** [fillna(0)] on one row. *)
Definition fill (c : string) (r : gmap string cell) : gmap string cell :=
  if is_na (get r c) then <[c := Num 0%float]> r else r.

(** The frames a run loads in world [w]. *)
Definition frames_of (w : World) : Frames :=
  match (load_frames w).1 with
  | Ok fr => fr
  | Raise _ =>
      {| engineers_df := empty_frame; sites_df := empty_frame; alloc_df := empty_frame;
         assign_df := empty_frame; expenses_df := empty_frame |}
  end.

(** The tables a request may write. *)
Definition tables_of (rq : request) : list string :=
  match rq with
  | AllocateFunds _ _ _ _ => ["fund_allocations"; "audit_log"]
  | AssignEngineer _ _ _ => ["assignments"; "audit_log"]
  | RecordExpense _ => ["expenses"; "fund_allocations"; "audit_log"]
  | Approvals _ => ["expenses"; "audit_log"]
  | AddEngineer _ _ _ _ => ["engineers"; "audit_log"]
  | AddSite _ _ _ => ["sites"; "audit_log"]
  | Dashboard | Export | Idle => []
  end.

(** The message a page ends on once the form went through. *)
Definition confirmation (rq : request) : option widget :=
  match rq with
  | AllocateFunds _ _ _ _ => Some (Success "Funds allocated")
  | AssignEngineer _ _ _ => Some (Success "Engineer assigned")
  | RecordExpense _ => Some (Success "Expense recorded (pending approval)")
  | Approvals (Some (true, _)) => Some (Success "Approved")
  | Approvals (Some (false, _)) => Some (Warning "Marked as reviewed (not approved)")
  | AddEngineer _ _ _ _ => Some (Success "Engineer added")
  | AddSite _ _ _ => Some (Success "Site added")
  | _ => None
  end.

(** The table a request writes first. *)
Definition primary_table (rq : request) : string :=
  match rq with
  | AllocateFunds _ _ _ _ => "fund_allocations"
  | AssignEngineer _ _ _ => "assignments"
  | AddEngineer _ _ _ _ => "engineers"
  | AddSite _ _ _ => "sites"
  | _ => "expenses"
  end.

(** The name under which a request is entered in the audit log. *)
Definition action_name (rq : request) : string :=
  match rq with
  | AllocateFunds _ _ _ _ => "allocate_funds"
  | AssignEngineer _ _ _ => "assign_engineer"
  | RecordExpense _ => "create_expense"
  | Approvals (Some (true, _)) => "approve_expense"
  | Approvals (Some (false, _)) => "reject_expense"
  | AddEngineer _ _ _ _ => "create_engineer"
  | AddSite _ _ _ => "create_site"
  | _ => ""
  end.

(** [m] never leaves behind a document that does not open, unless it found one. *)
Definition keeps_open {A} (m : M A) : Prop :=
  ∀ w, file w ≠ Corrupt → file (m w).2 ≠ Corrupt.

(** The number a cell adds to a sum, if any. *)
Definition summand (c : cell) : option float :=
  if is_na c then None else as_number c.

(** The sum of column [c] over rows, missing values counting for nothing. *)
Definition total_of (c : string) (rs : list (gmap string cell)) : float :=
  group_sum (omap (λ r, summand (get r c)) rs).

(** The cell holds text. *)
Definition is_text (c : cell) : bool :=
  match c with
  | Str _ => true
  | _ => false
  end.

(** Column [c] holds no string. *)
Definition numeric (c : string) (df : DataFrame) : Prop :=
  Forall (λ r, is_text (get r c) = false) (rows df).

(** The sum of column [c] over the rows of [df] whose [key] is [k]; rows
    without a key belong to no group. *)
Definition group_total (df : DataFrame) (key : string) (k : cell) (c : string) : float :=
  if is_na k then 0%float
  else total_of c (filter (λ r, get r key = k) (rows df)).

(** What the dashboard shows for a total: a sum that is not a number shows
    as zero. *)
Definition shown (x : float) : float := if PrimFloat.is_nan x then 0%float else x.

(** The row [groupby] makes for key [k]. *)
Definition group_row (df : DataFrame) (key : string) (aggs : list (string * string))
    (k : cell) : gmap string cell :=
  list_to_map ((key, k) ::
               ((λ agg, (agg.1, Num (total_of agg.2 (filter (λ r, get r key = k) (rows df)))))
                  <$> aggs)).

(** One row of the left join with a grouped frame. *)
Definition joined (df : DataFrame) (key : string) (aggs : list (string * string))
    (r : gmap string cell) : gmap string cell :=
  if decide (get r key ∈ group_keys df key)
  then r ∪ delete key (group_row df key aggs (get r key))
  else r.

(** ** Worlds to run the script in *)

(** A world in which another session holds the lock and the workbook has not
    been created yet. *)
Definition busy_world : World :=
  {| file := Missing; lock_held := false; lock_oracle := [false]; uuid_seed := 0;
     utc_clock := 0%N; session_user := Str "Alice <alice@example.org>"; screen := [];
     journal := [] |}.

(** A fresh installation: nothing on disk, nobody holding the lock. *)
Definition fresh_world : World :=
  {| file := Missing; lock_held := false; lock_oracle := []; uuid_seed := 0;
     utc_clock := 0%N; session_user := Str "Alice <alice@example.org>"; screen := [];
     journal := [] |}.

(** Engineer E1 and site S1 with two allocations of 500.00 each, and an
    expense of 600.00 for them. *)
Definition two_allocations : World :=
  session [AllocateFunds (Str "E1") (Str "S1") 500 "first";
           AllocateFunds (Str "E1") (Str "S1") 500 "second"] fresh_world.

Definition expense_600 : expense_form :=
  {| site_choice := Str "S1"; eng_choice := Str "E1"; exp_type := "Material";
     amount := 600; date := "2024-05-01"; payment_mode := "Cash"; receipt := None;
     notes := "" |}.

(** The 600.00 expense recorded, nothing reviewed yet. *)
Definition one_expense : World := session [RecordExpense expense_600] two_allocations.

(** What the approval columns of the expenses table hold. *)
Definition approval_status (w : World) : list (cell * cell) :=
  (λ r, (get r "approved", get r "approved_by")) <$> rows (peek "expenses" w).

(** What the balance column of the fund_allocations table holds. *)
Definition balances (w : World) : list cell :=
  (λ r, get r "balance_remaining") <$> rows (peek "fund_allocations" w).

(** One engineer and one site, no allocation and no expense yet. *)
Definition staffed_world : World :=
  session [AddEngineer "Asha" "555-0100" "asha@example.org" "Site Engineer";
           AddSite "Depot" "Harbour road" "2024-05-01"] fresh_world.

(** A workbook from which the fund_allocations sheet was removed by hand. *)
Definition tampered_world : World :=
  set_file (Workbook (delete "fund_allocations" initial_sheets)) fresh_world.

(** A document that does not open. *)
Definition corrupt_world : World := set_file Corrupt fresh_world.

(** One site, one engineer and an expense of 125.50 for them. *)
Definition spending_world : World :=
  session [AddSite "Depot" "Harbour road" "2024-05-01";
           AddEngineer "Asha" "555-0100" "asha@example.org" "Site Engineer";
           RecordExpense {| site_choice := Str (uuid_of 0); eng_choice := Str (uuid_of 2);
                            exp_type := "Labour"; amount := 125.5; date := "2024-05-02";
                            payment_mode := "Card"; receipt := None; notes := "crew" |}]
          fresh_world.

(** An expense for an engineer who has no allocation. *)
Definition expense_unfunded : expense_form :=
  {| site_choice := Str "S1"; eng_choice := Str "E2"; exp_type := "Labour";
     amount := 125.5; date := "2024-05-02"; payment_mode := "Card";
     receipt := Some "bill.pdf"; notes := "crew" |}.

(** The workbook exists and another session holds the lock just now. *)
Definition contended_world : World := set_lock false [false] two_allocations.

(** A fresh installation in which the lock is free for one acquisition and
    held by another session at the next. *)
Definition interrupted_world : World := set_lock false [true; false] fresh_world.

(** One allocation of 1.10 for engineer E1 at site S1, and expenses for them. *)
Definition small_allocation : World :=
  session [AllocateFunds (Str "E1") (Str "S1") 1.1 "petty cash"] fresh_world.

Definition expense_of (a : float) : expense_form :=
  {| site_choice := Str "S1"; eng_choice := Str "E1"; exp_type := "Material";
     amount := a; date := "2024-05-01"; payment_mode := "Cash"; receipt := None;
     notes := "" |}.


End Model.

(** An environment to run the examples in: a group is summed from left to
    right, and the text of a float is left out. *)
Definition example_library : Library :=
  {| repr_float := λ _, "..."; sum_floats := foldl PrimFloat.add 0%float |}.

Section Properties.
Context `{lib : Library}.

(** * Properties of the store *)

Ltac run_store :=
  cbv beta iota zeta delta
    [mbind mret M_bind M_ret lift st current_user try_finally uuid4 utcnow utctoday
     ensure_workbook read_or_empty read_sheet acquire release to_excel note_busy
     write_sheet append_row log set_file set_lock set_seed show record_call
     file lock_held lock_oracle uuid_seed utc_clock session_user screen journal
     fst snd tail peek initialized read_excel].

Lemma parsed_written (c : cell) : parsed (written c) = read_back c.
Proof.
  destruct c as [| s | x | b]; try done.
  simpl. destruct (decide (s = "")) as [-> |]; done.
Qed.

Lemma read_back_parsed (c : cell) : read_back (parsed c) = parsed c.
Proof.
  destruct c as [| s | x | b]; try done.
  simpl. destruct (bool_decide (s ∈ na_values)) eqn:E; simpl; [done | by rewrite E].
Qed.


Lemma get_read_back (r : gmap string cell) (k : string) :
  get (read_back <$> r) k = read_back (get r k).
Proof. unfold get. rewrite lookup_fmap. by destruct (r !! k). Qed.

Lemma from_to_sheet (df : DataFrame) : from_sheet (to_sheet df) = stored df.
Proof.
  unfold from_sheet, to_sheet, stored. simpl. f_equal.
  rewrite <- list_fmap_compose. apply list_fmap_ext. intros i r _. simpl.
  rewrite <- map_fmap_compose. apply map_fmap_ext. intros k c _. apply parsed_written.
Qed.

Lemma stored_from_sheet (df : DataFrame) : stored (from_sheet df) = from_sheet df.
Proof.
  unfold from_sheet, stored. simpl. f_equal.
  rewrite <- list_fmap_compose. apply list_fmap_ext. intros i r _. simpl.
  rewrite <- map_fmap_compose. apply map_fmap_ext. intros k c _. apply read_back_parsed.
Qed.

Lemma stored_read (o : option DataFrame) :
  stored (default empty_frame (from_sheet <$> o)) = default empty_frame (from_sheet <$> o).
Proof. destruct o as [df |]; [apply stored_from_sheet | done]. Qed.

Lemma stored_peek (sheet_name : string) (w : World) :
  stored (peek sheet_name w) = peek sheet_name w.
Proof.
  unfold peek, read_excel. destruct (initialized (file w)); try done. apply stored_read.
Qed.

Lemma stored_rows_peek (sheet_name : string) (w : World) :
  (λ r : gmap string cell, read_back <$> r) <$> rows (peek sheet_name w)
  = rows (peek sheet_name w).
Proof. by rewrite <- (stored_peek sheet_name w) at 2. Qed.

Ltac sheet_lookups :=
  repeat (rewrite lookup_insert_eq || rewrite lookup_insert_ne by done);
  cbn [fmap option_fmap option_map default];
  rewrite ?from_to_sheet.

Lemma initial_sheets_header_only (sheet_name : string) (df : DataFrame) :
  initial_sheets !! sheet_name = Some df → rows df = [].
Proof.
  intros H. apply elem_of_list_to_map_2 in H.
  cbn in H. set_unfold in H.
  repeat (destruct H as [H | H]; [by inversion H |]). done.
Qed.

Lemma read_sheet_eq (sheet_name : string) (w : World) :
  read_sheet sheet_name w = (Ok (peek sheet_name w), (ensure_workbook w).2).
Proof. destruct w as [[] h o s c u sc j]; reflexivity. Qed.

Lemma peek_ensure_workbook (sheet_name : string) (w : World) :
  peek sheet_name (ensure_workbook w).2 = peek sheet_name w.
Proof. destruct w as [[] h o s c u sc j]; reflexivity. Qed.

(** C6: reading a table that is absent or unreadable (no document, no such
    sheet, a document that does not open) never raises: [read_sheet] returns
    a frame, and that frame has no rows. *)
Theorem read_sheet_lenient (sheet_name : string) (w : World) :
  ∃ df, (read_sheet sheet_name w).1 = Ok df ∧
        (unreadable sheet_name (file w) → rows df = [] ∧ is_empty df = true).
Proof.
  exists (peek sheet_name w). rewrite read_sheet_eq. split; [done |].
  assert (rows (peek sheet_name w) = [] → is_empty (peek sheet_name w) = true) as Hemp.
  { unfold is_empty. intros ->. by destruct (columns _). }
  intros Hun. split; [| apply Hemp]; unfold peek;
    destruct (file w) as [| | sheets]; simpl in *; try done;
    try (by rewrite Hun);
    destruct (initial_sheets !! sheet_name) as [df |] eqn:E; simpl; try done;
    apply initial_sheets_header_only in E; by rewrite E.
Qed.

(** C5, as the code has it: when the lock times out, [write_sheet] returns
    normally after showing the retry message; the named table is not written
    and every table reads as before, but a document that was missing has been
    created header-only by [ensure_workbook], which runs before the lock is
    taken.  When the lock is acquired it is released whether the write
    returns or raises. *)
Theorem write_sheet_lock_discipline (sheet_name : string) (df : DataFrame) (w : World) :
  let out := write_sheet sheet_name df w in
  match lock_oracle w with
  | false :: rest =>
      out.1 = Ok tt ∧
      file out.2 = initialized (file w) ∧
      (∀ n, peek n out.2 = peek n w) ∧
      screen out.2 = (screen w ++ [Error lock_message])%list ∧
      lock_held out.2 = lock_held w ∧
      lock_oracle out.2 = rest
  | _ =>
      lock_held out.2 = false ∧ (out.1 = Ok tt ∨ out.1 = Raise BadZipFile)
  end.
Proof.
  destruct w as [[] h [| [] o] s c u sc j]; run_store; auto 10.
Qed.






Lemma schema_lookup name cols :
  (name, cols) ∈ schema → initial_sheets !! name = Some (header_only cols).
Proof.
  intros Hin. unfold initial_sheets. apply elem_of_list_to_map_1.
  - apply (@bool_decide_unpack _ (NoDup_dec _)). vm_compute. exact I.
  - apply list_elem_of_fmap. by exists (name, cols).
Qed.

(** X2: [ensure_workbook] creates the document only when it is missing, with
    the seven tables of the schema, each header-only with its columns; a
    document that exists, readable or not, is left as it is; a second call
    changes nothing, and the lock, the screen and the journal are never
    touched. *)
Theorem ensure_workbook_initializes (w : World) :
  let out := ensure_workbook w in
  out.1 = Ok tt ∧
  file out.2 = initialized (file w) ∧
  (file w = Missing →
   (∀ name cols, (name, cols) ∈ schema → peek name out.2 = header_only cols) ∧
   (∀ name, name ∉ schema.*1 → peek name out.2 = empty_frame)) ∧
  (file w ≠ Missing → out.2 = w) ∧
  ensure_workbook out.2 = (Ok tt, out.2) ∧
  lock_oracle out.2 = lock_oracle w ∧ lock_held out.2 = lock_held w ∧
  journal out.2 = journal w ∧ screen out.2 = screen w.
Proof.
  destruct w as [[] h o s c u sc j]; run_store; repeat split; try done.
  - intros name cols Hin. by rewrite (schema_lookup name cols Hin).
  - intros name Hn.
    destruct (initial_sheets !! name) as [df |] eqn:El; [| done].
    apply elem_of_list_to_map_2 in El.
    apply list_elem_of_fmap in El as ([n cols] & Heq & Hin).
    simpl in Heq. injection Heq as <- ->. exfalso. apply Hn.
    apply list_elem_of_fmap. by exists (name, cols).
Qed.

(** X3: [read_sheet] takes no lock and writes no table; its only effect is
    that a missing document gets created, so a read that follows any read
    returns what it would have returned before it. *)
Theorem read_sheet_stable (first second : string) (w : World) :
  let out := read_sheet first w in
  out.1 = Ok (peek first w) ∧
  read_sheet second out.2 = (Ok (peek second w), out.2) ∧
  lock_oracle out.2 = lock_oracle w ∧ lock_held out.2 = lock_held w ∧
  journal out.2 = journal w ∧ screen out.2 = screen w ∧
  file out.2 = initialized (file w).
Proof. destruct w as [[] h o s c u sc j]; run_store; repeat split; done. Qed.


(** * Properties of the reconciler *)

Lemma mapR_ok {A B} (f : A → Result B) (g : A → B) (l : list A) :
  Forall (λ x, f x = Ok (g x)) l → mapR f l = Ok (g <$> l).
Proof.
  induction 1 as [| x l Hx _ IH]; [done |]. simpl. rewrite Hx. simpl. by rewrite IH.
Qed.

Lemma require_ok df c : c ∈ columns df → require df c = Ok tt.
Proof. intros H. unfold require, has_column. by rewrite bool_decide_eq_true_2. Qed.

Lemma require_all_ok df cs : cs ⊆ columns df → require_all df cs = Ok tt.
Proof.
  induction cs as [| c cs IH]; intros Hsub; [done |].
  simpl. rewrite require_ok by set_solver. simpl. apply IH. set_solver.
Qed.

Lemma balance_of_get r b : balance_of r = Some b → get r "balance_remaining" = Num b.
Proof. unfold balance_of. destruct (get r "balance_remaining"); naive_solver. Qed.

Lemma candidate_ok f r :
  is_Some (balance_of r) → candidate (eng_choice f) (site_choice f) r = Ok (is_match f r).
Proof.
  intros [b Hb]. unfold candidate, is_match. rewrite Hb.
  by rewrite (balance_of_get r b Hb).
Qed.

Lemma is_match_matches f r : is_match f r = true ↔ matches f r.
Proof.
  unfold is_match, matches. rewrite !andb_true_iff. split.
  - intros [[H1 H2] H3]. split; [done |]. split; [done |].
    destruct (balance_of r) as [b |]; [eauto | done].
  - intros (H1 & H2 & b & Hb & Hpos). rewrite Hb. done.
Qed.

Lemma first_fit_ok df f :
  allocations_ok df →
  first_fit df (eng_choice f) (site_choice f) = Ok (fst <$> first_match df f).
Proof.
  intros [Hcols Hrows]. unfold first_fit, alloc_mask, first_match.
  rewrite require_all_ok by done. simpl.
  rewrite (mapR_ok _ (is_match f)).
  2:{ eapply Forall_impl; [exact Hrows |]. intros r Hr. by apply candidate_ok. }
  simpl. f_equal. rewrite list_find_fmap.
  destruct (list_find _ (rows df)) as [[i r] |]; reflexivity.
Qed.

Lemma reconcile_ok df f :
  allocations_ok df →
  reconcile df (eng_choice f) (site_choice f) (amount f)
  = Ok (match first_match df f with
        | Some _ => Some (debit df f)
        | None => None
        end).
Proof.
  intros Hok. unfold reconcile, debit. rewrite first_fit_ok by done. simpl.
  destruct (first_match df f) as [[idx r] |] eqn:E; simpl; [| done].
  apply list_find_Some in E as (Hidx & Hm & _).
  destruct Hok as [Hcols Hrows].
  unfold at_. rewrite require_ok by set_solver. simpl. rewrite Hidx. simpl.
  assert (is_Some (balance_of r)) as [b Hb].
  { rewrite Forall_forall in Hrows. apply Hrows. by eapply list_elem_of_lookup_2. }
  rewrite Hb, (balance_of_get r b Hb). reflexivity.
Qed.

Ltac run_script :=
  cbv beta iota zeta delta
    [mbind mret M_bind M_ret lift st current_user try_finally uuid4 utcnow utctoday
     ensure_workbook read_or_empty read_sheet acquire release to_excel note_busy
     write_sheet append_row log set_file set_lock set_seed show record_call
     file lock_held lock_oracle uuid_seed utc_clock session_user screen journal
     fst snd tail peek initialized read_excel
     script load_frames page_expense page_allocate page_assign page_add_engineer
     page_add_site page_approvals page_dashboard
     expenses_df alloc_df sites_df engineers_df assign_df].

Lemma balance_of_lookup r b : balance_of r = Some b → r !! "balance_remaining" = Some (Num b).
Proof.
  unfold balance_of, get. destruct (r !! "balance_remaining") as [[] |]; naive_solver.
Qed.

Lemma balance_of_insert r x : balance_of (<["balance_remaining" := Num x]> r) = Some x.
Proof. unfold balance_of, get. by rewrite lookup_insert_eq. Qed.

Lemma debit_ok alloc f : allocations_ok alloc → allocations_ok (debit alloc f).
Proof.
  intros [Hcols Hrows]. unfold debit.
  destruct (first_match alloc f) as [[idx r] |]; [| done].
  split; [done |]. simpl.
  apply Forall_alter; [done |]. intros r' _. rewrite balance_of_insert. eauto.
Qed.

Lemma stored_alter (rs : list (gmap string cell)) (idx : nat) (c : string) (v : cell) :
  (λ r : gmap string cell, read_back <$> r) <$> alter (<[c := v]>) idx rs
  = alter (<[c := read_back v]>) idx ((λ r : gmap string cell, read_back <$> r) <$> rs).
Proof.
  apply list_fmap_alter. apply Forall_forall. intros r _. apply fmap_insert.
Qed.

Lemma stored_debit alloc f : stored alloc = alloc → stored (debit alloc f) = debit alloc f.
Proof.
  intros Hs. unfold debit. destruct (first_match alloc f) as [[idx r] |]; [| done].
  unfold stored. simpl. f_equal. rewrite stored_alter. simpl.
  f_equal. by rewrite <- Hs at 2.
Qed.

Lemma debit_lookup alloc f idx r b :
  rows alloc !! idx = Some r → balance_of r = Some b →
  rows (debit alloc f) !! idx
  = Some (<["balance_remaining" := Num (debited b (debits_routed alloc [f] idx))]> r).
Proof.
  intros Hidx Hb. unfold debit. simpl.
  destruct (first_match alloc f) as [[i ri] |] eqn:E; simpl.
  - apply list_find_Some in E as (Hi & _ & _).
    destruct (decide (i = idx)) as [-> |].
    + rewrite list_lookup_alter_eq, Hidx. simpl.
      assert (ri = r) as -> by congruence. by rewrite Hb.
    + rewrite list_lookup_alter_ne, Hidx by done. f_equal.
      symmetry. apply insert_id. by apply balance_of_lookup.
  - rewrite Hidx. f_equal. symmetry. apply insert_id. by apply balance_of_lookup.
Qed.

Lemma debited_app b xs ys : debited (debited b xs) ys = debited b (xs ++ ys).
Proof. unfold debited. by rewrite foldl_app. Qed.

Lemma replay_lookup fs : ∀ alloc idx r b,
  rows alloc !! idx = Some r → balance_of r = Some b →
  rows (foldl debit alloc fs) !! idx
  = Some (<["balance_remaining" := Num (debited b (debits_routed alloc fs idx))]> r).
Proof.
  induction fs as [| f fs IH]; intros alloc idx r b Hidx Hb.
  - simpl. rewrite Hidx. f_equal. symmetry.
    apply insert_id. by apply balance_of_lookup.
  - simpl foldl.
    pose proof (debit_lookup alloc f idx r b Hidx Hb) as H1.
    rewrite (IH _ idx _ _ H1 (balance_of_insert _ _)).
    rewrite insert_insert_eq. do 3 f_equal.
    rewrite debited_app. f_equal. simpl. by rewrite app_nil_r.
Qed.

Lemma replay_length fs : ∀ alloc, length (rows (foldl debit alloc fs)) = length (rows alloc).
Proof.
  induction fs as [| f fs IH]; intros alloc; [done |].
  simpl. rewrite IH. unfold debit.
  destruct (first_match alloc f) as [[i r] |]; [simpl; by rewrite length_alter | done].
Qed.

Lemma not_na_text (s : string) (a : ascii) (t : string) :
  s = String a t → bool_decide (a ∈ ["#"; "-"; "1"; "<"; "N"; "n"]%char) = false →
  s ∉ na_values.
Proof.
  intros -> Ha Hin. apply bool_decide_eq_false in Ha. apply Ha. clear Ha.
  unfold na_values in Hin.
  repeat (apply elem_of_cons in Hin as [Hin | Hin];
          [try discriminate Hin; injection Hin as -> _;
           apply (bool_decide_unpack _); vm_compute; exact I |]).
  by apply elem_of_nil in Hin.
Qed.

Lemma uuid_kept (n : nat) : read_back (Str (uuid_of n)) = Str (uuid_of n).
Proof.
  unfold read_back. rewrite bool_decide_eq_false_2; [done |].
  eapply not_na_text; reflexivity.
Qed.

Lemma isoformat_kept (t : N) : read_back (Str (isoformat t)) = Str (isoformat t).
Proof.
  unfold read_back. rewrite bool_decide_eq_false_2; [done |].
  eapply not_na_text; reflexivity.
Qed.

Lemma date_isoformat_kept (t : N) :
  read_back (Str (date_isoformat t)) = Str (date_isoformat t).
Proof.
  unfold read_back. rewrite bool_decide_eq_false_2; [done |].
  eapply not_na_text; reflexivity.
Qed.

(** The expense row as it reads once saved. *)
Lemma created_fields (n : nat) (f : expense_form) :
  records (read_back <$> list_to_map (expense_row (uuid_of n) f)) (uuid_of n) f.
Proof.
  unfold records. rewrite !get_read_back.
  split; [by rewrite <- uuid_kept |]. repeat split.
Qed.

Lemma script_expense f w sheets :
  file w = Workbook sheets → lock_oracle w = [] →
  allocations_ok (peek "fund_allocations" w) →
  let out := script (RecordExpense f) w in
  out.1 = Ok tt ∧
  (∃ sheets', file out.2 = Workbook sheets') ∧
  lock_oracle out.2 = [] ∧
  peek "fund_allocations" out.2 = debit (peek "fund_allocations" w) f ∧
  peek "expenses" out.2
  = stored (concat_row (peek "expenses" w) (expense_row (uuid_of (uuid_seed w)) f)).
Proof.
  intros Hf Ho Hok.
  pose proof (stored_debit _ f (stored_peek "fund_allocations" w)) as Hs.
  destruct w as [d h o s c u sc j]; simpl in Hf, Ho; subst.
  revert Hok Hs. run_script. intros Hok Hs.
  rewrite lookup_insert_ne by done.
  rewrite (reconcile_ok _ f Hok).
  unfold debit in *.
  destruct (first_match _ f) as [[idx r] |]; run_script;
    sheet_lookups; rewrite ?Hs; eauto 10.
Qed.

Lemma session_replay fs : ∀ w sheets,
  file w = Workbook sheets → lock_oracle w = [] →
  allocations_ok (peek "fund_allocations" w) →
  peek "fund_allocations" (session (RecordExpense <$> fs) w)
  = foldl debit (peek "fund_allocations" w) fs.
Proof.
  induction fs as [| f fs IH]; intros w sheets Hf Ho Hok; [done |].
  destruct (script_expense f w sheets Hf Ho Hok) as (_ & [sheets' Hf'] & Ho' & Hp & _).
  change (session (RecordExpense <$> f :: fs) w)
    with (session (RecordExpense <$> fs) (script (RecordExpense f) w).2).
  rewrite (IH _ sheets' Hf' Ho'); rewrite Hp; [done |].
  by apply debit_ok.
Qed.

(** C1: recording an expense debits the first row of fund_allocations, in
    table order, among the rows whose engineer_id and site_id match and whose
    balance is positive: every matching row stands at or after the debited
    one, no row before it matches, and of two matching rows the later one is
    never the one debited, whatever the balances and the dates. *)
Theorem first_fit_selection (f : expense_form) (w : World) (sheets : gmap string DataFrame) :
  file w = Workbook sheets → lock_oracle w = [] →
  allocations_ok (peek "fund_allocations" w) →
  let alloc := peek "fund_allocations" w in
  let out := script (RecordExpense f) w in
  let alloc' := peek "fund_allocations" out.2 in
  out.1 = Ok tt ∧ columns alloc' = columns alloc ∧
  (∀ i ri, rows alloc !! i = Some ri → matches f ri →
     ∃ idx r b, (idx ≤ i)%nat ∧ rows alloc !! idx = Some r ∧ matches f r ∧
       balance_of r = Some b ∧
       (∀ j rj, (j < idx)%nat → rows alloc !! j = Some rj → ¬ matches f rj) ∧
       rows alloc' !! idx = Some (<["balance_remaining" := Num (b - amount f)%float]> r) ∧
       (∀ j, j ≠ idx → rows alloc' !! j = rows alloc !! j)) ∧
  (∀ i j ri rj, (i < j)%nat →
     rows alloc !! i = Some ri → rows alloc !! j = Some rj →
     matches f ri → matches f rj → rows alloc' !! j = Some rj) ∧
  (∀ j rj, rows alloc !! j = Some rj → ¬ matches f rj → rows alloc' !! j = Some rj).
Proof.
  intros Hf Ho Hok alloc out alloc'.
  destruct (script_expense f w sheets Hf Ho Hok) as (Hres & _ & _ & Hp & _).
  subst alloc'. fold out in Hp. rewrite Hp. fold alloc.
  split; [done |]. unfold debit, first_match.
  destruct (list_find _ (rows alloc)) as [[idx r] |] eqn:E.
  - split; [done |]. simpl.
    apply list_find_Some in E as (Hidx & Hm & Hfirst).
    apply is_match_matches in Hm.
    assert (∀ j rj, (j < idx)%nat → rows alloc !! j = Some rj → ¬ matches f rj) as Hbefore.
    { intros j rj Hlt Hj Hmj. apply (Hfirst j rj Hj Hlt). by apply is_match_matches. }
    assert (∀ i ri, rows alloc !! i = Some ri → matches f ri → (idx ≤ i)%nat) as Hle.
    { intros i ri Hi Hmi. destruct (decide (idx ≤ i)%nat); [done |].
      exfalso. apply (Hbefore i ri); [lia | done | done]. }
    split; [| split].
    + intros i ri Hi Hmi. destruct Hm as (? & ? & b & Hb & ?) eqn:Hm'.
      exists idx, r, b. split; [by eapply Hle |]. split; [done |].
      split; [done |]. split; [done |]. split; [done |]. split.
      * rewrite list_lookup_alter_eq, Hidx, Hb. done.
      * intros j Hne. by rewrite list_lookup_alter_ne.
    + intros i j ri rj Hlt Hi Hj Hmi Hmj.
      rewrite list_lookup_alter_ne; [done |].
      pose proof (Hle i ri Hi Hmi). lia.
    + intros j rj Hj Hnm. rewrite list_lookup_alter_ne; [done |].
      intros ->. congruence.
  - apply list_find_None in E. rewrite Forall_forall in E.
    split; [done |]. split; [| done].
    intros i ri Hi Hmi. exfalso. apply (E ri).
    + by eapply list_elem_of_lookup_2.
    + by apply is_match_matches.
Qed.

(** C2, as the code has it: the selected allocation is debited by the full
    amount, whatever its balance (nothing stops it at zero), in double
    precision: after any run of expenses the balance of every allocation is
    its starting balance, which is the amount allocated for an allocation not
    yet debited, with the amounts the reconciler routed to it subtracted one
    after the other in the order they were recorded; no allocation row
    appears or disappears.  With two allocations of 500.00 for the same
    engineer and site, an expense of 600.00 leaves -100.00 on the first and
    500.00 on the second. *)
Theorem balance_after_debits (fs : list expense_form) (w : World)
    (sheets : gmap string DataFrame) :
  file w = Workbook sheets → lock_oracle w = [] →
  allocations_ok (peek "fund_allocations" w) →
  let alloc := peek "fund_allocations" w in
  let final := peek "fund_allocations" (session (RecordExpense <$> fs) w) in
  (∀ idx r b, rows alloc !! idx = Some r → balance_of r = Some b →
     rows final !! idx
     = Some (<["balance_remaining" := Num (debited b (debits_routed alloc fs idx))]> r)) ∧
  (∀ idx r a, rows alloc !! idx = Some r →
     get r "amount_allocated" = Num a → balance_of r = Some a →
     ∃ r', rows final !! idx = Some r' ∧ get r' "amount_allocated" = Num a ∧
           balance_of r' = Some (debited a (debits_routed alloc fs idx))) ∧
  length (rows final) = length (rows alloc) ∧
  balances two_allocations = [Num 500; Num 500] ∧
  balances (session [RecordExpense expense_600] two_allocations) = [Num (-100); Num 500].
Proof.
  intros Hf Ho Hok alloc final.
  assert (∀ idx r b, rows alloc !! idx = Some r → balance_of r = Some b →
     rows final !! idx
     = Some (<["balance_remaining" := Num (debited b (debits_routed alloc fs idx))]> r))
    as Hmain.
  { intros idx r b Hidx Hb. subst final.
    rewrite (session_replay fs w sheets Hf Ho Hok). by apply replay_lookup. }
  split; [exact Hmain |]. split; [| split].
  - intros idx r a Hidx Ha Hb. eexists. split; [by apply Hmain |].
    split; [| apply balance_of_insert].
    unfold get. by rewrite lookup_insert_ne.
  - subst final. rewrite (session_replay fs w sheets Hf Ho Hok). apply replay_length.
  - split; vm_compute; reflexivity.
Qed.

(** C3: when no allocation row matches the expense's engineer and site with a
    positive balance, the run ends without an exception; the expenses table
    reads as before followed by one row that carries the new expense id, the
    fields of the form, approved = False and no approver (the write of the
    row acquiring the lock); the fund_allocations table reads as before and
    no write to it is issued. *)
Theorem unallocated_expense (f : expense_form) (w : World) (sheets : gmap string DataFrame) :
  file w = Workbook sheets → head (lock_oracle w) ≠ Some false →
  allocations_ok (peek "fund_allocations" w) →
  (∀ r, r ∈ rows (peek "fund_allocations" w) → ¬ matches f r) →
  let out := script (RecordExpense f) w in
  out.1 = Ok tt ∧
  (∃ created,
     rows (peek "expenses" out.2) = (rows (peek "expenses" w) ++ [created])%list ∧
     records created (uuid_of (uuid_seed w)) f) ∧
  peek "fund_allocations" out.2 = peek "fund_allocations" w ∧
  ∃ calls, journal out.2 = (journal w ++ calls)%list ∧
           Forall (λ c, target c ≠ "fund_allocations") calls.
Proof.
  intros Hf Ho Hok Hnone.
  assert (first_match (peek "fund_allocations" w) f = None) as E.
  { apply list_find_None. apply Forall_forall. intros r Hr Hm.
    apply (Hnone r Hr). by apply is_match_matches. }
  pose proof (created_fields (uuid_seed w) f) as Hfields.
  pose proof (stored_rows_peek "expenses" w) as Hs.
  destruct w as [d h o s c u sc j]; simpl in Hf, Ho; subst.
  revert Hok E Hnone Hfields Hs. run_script. intros Hok E Hnone Hfields Hs.
  destruct o as [| [] [| [] o]]; try done; run_script; sheet_lookups;
    rewrite (reconcile_ok _ f Hok), E; run_script; sheet_lookups;
    (split; [done |]; split;
     [eexists; split; [simpl; rewrite fmap_app, Hs; reflexivity | exact Hfields]
     | split; [done |]]);
    rewrite <- ?app_assoc; eexists; (split; [reflexivity |]); repeat constructor; done.
Qed.

Lemma two_allocations_file :
  file two_allocations = Workbook (sheets_of (file two_allocations)).
Proof. vm_compute. reflexivity. Qed.

Lemma two_allocations_uncontended : lock_oracle two_allocations = [].
Proof. vm_compute. reflexivity. Qed.

Lemma two_allocations_ok : allocations_ok (peek "fund_allocations" two_allocations).
Proof. apply (@bool_decide_unpack _ (allocations_ok_dec _)). vm_compute. exact I. Qed.

Lemma expense_unfunded_no_match :
  ∀ r, r ∈ rows (peek "fund_allocations" two_allocations) → ¬ matches expense_unfunded r.
Proof.
  assert (Forall (λ r, is_match expense_unfunded r = false)
            (rows (peek "fund_allocations" two_allocations))) as H.
  { apply (@bool_decide_unpack _ (Forall_dec _ _)). vm_compute. exact I. }
  rewrite Forall_forall in H. intros r Hr Hm.
  apply is_match_matches in Hm. specialize (H r Hr). congruence.
Qed.

Lemma two_allocations_lock_free : head (lock_oracle two_allocations) ≠ Some false.
Proof. rewrite two_allocations_uncontended. discriminate. Qed.

(** * Properties of the approvals page *)

Lemma decide_expense_ok expenses eid approve user :
  "expense_id" ∈ columns expenses →
  ∃ expenses', decide_expense expenses eid approve user = Ok expenses' ∧
               rows expenses' = decided_rows expenses eid approve user.
Proof.
  intros Hc. unfold decide_expense, set_where.
  rewrite require_ok by done. simpl.
  rewrite require_ok.
  2:{ simpl. destruct (has_column expenses "approved"); set_solver. }
  simpl. eexists. split; [reflexivity |]. simpl.
  unfold decided_rows. rewrite <- list_fmap_compose. apply list_fmap_ext.
  intros i q _. simpl.
  destruct (py_eq (get q "expense_id") eid) eqn:E.
  - unfold get at 1. rewrite lookup_insert_ne by done. fold (get q "expense_id").
    by rewrite E.
  - by rewrite E.
Qed.

Lemma pending_rows expenses todo k r :
  pending expenses = Ok todo → rows todo !! k = Some r →
  is_empty todo = false ∧ columns todo = columns expenses ∧
  rows todo = filter (λ q, py_ne (get q "approved") (Bool true) = true) (rows expenses).
Proof.
  unfold pending. intros Hp Hk.
  destruct (is_empty expenses) eqn:Ee.
  - injection Hp as <-. done.
  - unfold require in Hp. destruct (has_column expenses "approved"); [| done].
    simpl in Hp. injection Hp as <-. simpl in *. split; [| done].
    unfold is_empty in *. simpl.
    destruct (columns expenses); [done |].
    destruct (filter _ _); done.
Qed.

Lemma list_fmap_fixed {A} (g : A → A) (l : list A) : g <$> l = l → Forall (λ x, g x = x) l.
Proof.
  induction l as [| x l IH]; intros H; [done |].
  rewrite fmap_cons in H. injection H as Hx Hl. constructor; [done | by apply IH].
Qed.

Lemma stored_decided expenses eid approve user :
  (λ r : gmap string cell, read_back <$> r) <$> rows expenses = rows expenses →
  (λ r : gmap string cell, read_back <$> r) <$> decided_rows expenses eid approve user
  = decided_rows expenses eid approve (read_back user).
Proof.
  intros Hs. apply list_fmap_fixed in Hs.
  unfold decided_rows. rewrite <- list_fmap_compose.
  apply Forall_fmap_ext_1. eapply Forall_impl; [exact Hs |].
  intros q Hq. simpl. destruct (py_eq _ _); [| done].
  by rewrite !fmap_insert, Hq.
Qed.

(** C4, as the code has it: [approved] is a boolean.  A new expense has
    approved = False and an empty approved_by, which a reader of the table
    finds missing.  The page offers Approve and Reject for every expense
    whose approved is not True, reviewed or not; a click sets approved to
    True (Approve) or False (Reject) and approved_by to the signed-in user on
    every row carrying that expense id, and leaves the other rows as they
    were.  An expense whose approved is True is not listed any more; a
    rejected one still is. *)
Theorem approval_transitions (approve : bool) (k : nat) (w : World)
    (sheets : gmap string DataFrame) (todo : DataFrame) (r : gmap string cell) :
  file w = Workbook sheets → head (lock_oracle w) ≠ Some false →
  ["date"; "expense_id"; "site_id"; "engineer_id"; "amount"]
    ⊆ columns (peek "expenses" w) →
  pending (peek "expenses" w) = Ok todo → rows todo !! k = Some r →
  let out := script (Approvals (Some (approve, k))) w in
  out.1 = Ok tt ∧
  rows (peek "expenses" out.2)
  = decided_rows (peek "expenses" w) (get r "expense_id") approve
      (read_back (session_user w)) ∧
  (∀ q, q ∈ rows todo ↔
        q ∈ rows (peek "expenses" w) ∧ py_eq (get q "approved") (Bool true) = false) ∧
  (∀ expense_id f,
     let created : gmap string cell := list_to_map (expense_row expense_id f) in
     get created "approved" = Bool false ∧ get created "approved_by" = Str "" ∧
     read_back (get created "approved") = Bool false ∧
     read_back (get created "approved_by") = NaN).
Proof.
  intros Hf Ho Hcols Hp Hk.
  destruct (pending_rows _ _ _ _ Hp Hk) as (Hne & Hc & Hr).
  destruct (decide_expense_ok (peek "expenses" w) (get r "expense_id") approve
              (session_user w)) as (e' & He' & Hrows); [set_solver |].
  assert (require_all todo ["date"; "expense_id"; "site_id"; "engineer_id"; "amount"]
          = Ok tt) as Hreq by (apply require_all_ok; by rewrite Hc).
  assert (∀ q, q ∈ rows todo ↔
        q ∈ rows (peek "expenses" w) ∧ py_eq (get q "approved") (Bool true) = false) as Hiff.
  { intros q. rewrite Hr, list_elem_of_filter. unfold py_ne.
    rewrite negb_true_iff. tauto. }
  pose proof (stored_decided (peek "expenses" w) (get r "expense_id") approve
                (session_user w) (stored_rows_peek "expenses" w)) as Hs.
  rewrite <- Hrows in Hs.
  destruct w as [d h o s c u sc j]; simpl in Hf, Ho; subst.
  revert Hcols Hp He' Hs Hiff. run_script. intros Hcols Hp He' Hs Hiff.
  rewrite Hp. run_script. rewrite Hne, Hreq. run_script. rewrite Hk, He'.
  destruct approve, o as [| [] [| [] o]]; try done; run_script; sheet_lookups;
    (split; [done |]; split; [exact Hs |]; split; [done |]);
    intros expense_id f; repeat split.
Qed.

Lemma one_expense_file : file one_expense = Workbook (sheets_of (file one_expense)).
Proof. vm_compute. reflexivity. Qed.

Lemma one_expense_lock_free : head (lock_oracle one_expense) ≠ Some false.
Proof. vm_compute. discriminate. Qed.

Lemma one_expense_columns :
  ["date"; "expense_id"; "site_id"; "engineer_id"; "amount"]
    ⊆ columns (peek "expenses" one_expense).
Proof. apply (@bool_decide_unpack _ (list_subseteq_dec _ _)). vm_compute. exact I. Qed.

Lemma one_expense_pending :
  pending (peek "expenses" one_expense) = Ok (peek "expenses" one_expense).
Proof. vm_compute. reflexivity. Qed.

Lemma one_expense_first_row :
  rows (peek "expenses" one_expense) !! 0%nat
  = Some (read_back <$> list_to_map (expense_row (uuid_of 4) expense_600)).
Proof. vm_compute. reflexivity. Qed.

(** * Which tables a page touches *)

Lemma touches_only_bind {A B} tables (m : M A) (f : A → M B) :
  touches_only tables m → (∀ a, touches_only tables (f a)) →
  touches_only tables (m ≫= f).
Proof.
  intros Hm Hf w. destruct (Hm w) as [Hp (calls & Hj & Hc)].
  unfold mbind, M_bind. destruct (m w) as [[a | e] w'] eqn:E; simpl in *.
  - destruct (Hf a w') as [Hp' (calls' & Hj' & Hc')]. split.
    + intros name Hn. rewrite Hp', Hp; done.
    + exists (calls ++ calls')%list. rewrite Hj', Hj, app_assoc. split; [done |].
      by apply Forall_app.
  - split; [done |]. eauto.
Qed.

Lemma touches_only_pure {A} tables (m : M A) :
  (∀ w, file (m w).2 = file w ∧ journal (m w).2 = journal w) → touches_only tables m.
Proof.
  intros H w. destruct (H w) as [Hf Hj]. split.
  - intros name _. unfold peek. by rewrite Hf.
  - exists []. rewrite Hj, app_nil_r. done.
Qed.

Lemma touches_only_ret {A} tables (a : A) : touches_only tables (mret a).
Proof. by apply touches_only_pure. Qed.

Lemma touches_only_lift {A} tables (r : Result A) : touches_only tables (lift r).
Proof. by apply touches_only_pure. Qed.

Lemma touches_only_st tables x : touches_only tables (st x).
Proof. by apply touches_only_pure. Qed.

Lemma touches_only_current_user tables : touches_only tables current_user.
Proof. by apply touches_only_pure. Qed.

Lemma touches_only_uuid4 tables : touches_only tables uuid4.
Proof. by apply touches_only_pure. Qed.

Lemma touches_only_utcnow tables : touches_only tables utcnow.
Proof. by apply touches_only_pure. Qed.

Lemma touches_only_utctoday tables : touches_only tables utctoday.
Proof. by apply touches_only_pure. Qed.

Lemma touches_only_read_sheet tables sheet_name : touches_only tables (read_sheet sheet_name).
Proof.
  intros w. rewrite read_sheet_eq. simpl. split.
  - intros name _. apply peek_ensure_workbook.
  - exists []. rewrite app_nil_r. by destruct w as [[] h o s c u sc j].
Qed.

Lemma touches_only_write_sheet tables sheet_name df :
  sheet_name ∈ tables → touches_only tables (write_sheet sheet_name df).
Proof.
  intros Hin w. split.
  - intros name Hn. assert (sheet_name ≠ name) by (intros ->; done).
    destruct w as [[] h [| [] o] s c u sc j]; run_store;
      rewrite ?lookup_insert_ne by done; done.
  - destruct w as [[] h [| [] o] s c u sc j]; run_store;
      eexists; (split; [reflexivity |]); repeat constructor; done.
Qed.

Lemma touches_only_append_row tables sheet_name row :
  sheet_name ∈ tables → touches_only tables (append_row sheet_name row).
Proof.
  intros Hin. apply touches_only_bind; [apply touches_only_read_sheet |].
  intros df. by apply touches_only_write_sheet.
Qed.

Lemma touches_only_log tables action object_type object_id user details :
  "audit_log" ∈ tables → touches_only tables (log action object_type object_id user details).
Proof.
  intros Hin. apply touches_only_bind; [apply touches_only_uuid4 |]. intros log_id.
  apply touches_only_bind; [apply touches_only_utcnow |]. intros ts.
  by apply touches_only_append_row.
Qed.

Lemma touches_only_load_frames tables : touches_only tables load_frames.
Proof.
  unfold load_frames.
  repeat (apply touches_only_bind; [apply touches_only_read_sheet | intros ?]).
  apply touches_only_ret.
Qed.

Ltac frame_step :=
  lazymatch goal with
  | |- touches_only _ (mbind _ _) => apply touches_only_bind; [| intros ?]
  | |- touches_only _ (mret _) => apply touches_only_ret
  | |- touches_only _ (lift _) => apply touches_only_lift
  | |- touches_only _ (st _) => apply touches_only_st
  | |- touches_only _ current_user => apply touches_only_current_user
  | |- touches_only _ uuid4 => apply touches_only_uuid4
  | |- touches_only _ utcnow => apply touches_only_utcnow
  | |- touches_only _ utctoday => apply touches_only_utctoday
  | |- touches_only _ load_frames => apply touches_only_load_frames
  | |- touches_only _ (read_sheet _) => apply touches_only_read_sheet
  | |- touches_only _ (write_sheet _ _) => apply touches_only_write_sheet; set_solver
  | |- touches_only _ (append_row _ _) => apply touches_only_append_row; set_solver
  | |- touches_only _ (log _ _ _ _ _) => apply touches_only_log; set_solver
  end.

Ltac frame_steps := repeat frame_step.

Lemma page_approvals_touches expenses click :
  touches_only ["expenses"; "audit_log"] (page_approvals expenses click).
Proof.
  unfold page_approvals. frame_steps.
  destruct (is_empty _); frame_steps.
  destruct click as [[approve k] |]; frame_steps.
  destruct (rows _ !! k); frame_steps.
  destruct approve; frame_steps.
Qed.

(** C10: a run of the Approvals page, whatever was clicked, issues writes to
    the expenses table and the audit log only, and every other table reads
    afterwards as it did before: in particular no fund_allocations row
    changes, so a rejection gives back nothing of what the expense debited. *)
Theorem approvals_frame (click : option (bool * nat)) (w : World) (name : string) :
  name ≠ "expenses" → name ≠ "audit_log" →
  let out := script (Approvals click) w in
  peek name out.2 = peek name w ∧
  rows (peek "fund_allocations" out.2) = rows (peek "fund_allocations" w) ∧
  ∃ calls, journal out.2 = (journal w ++ calls)%list ∧
           Forall (λ c, target c = "expenses" ∨ target c = "audit_log") calls.
Proof.
  intros H1 H2 out.
  assert (touches_only ["expenses"; "audit_log"] (script (Approvals click))) as H.
  { unfold script. apply touches_only_bind; [apply touches_only_load_frames |].
    intros fr. apply page_approvals_touches. }
  destruct (H w) as [Hp (calls & Hj & Hc)]. fold out in Hp, Hj.
  split; [apply Hp; set_solver |]. split; [f_equal; apply Hp; set_solver |].
  exists calls. split; [done |].
  eapply Forall_impl; [exact Hc |]. intros c. set_solver.
Qed.

Lemma page_export_touches tables sheets : touches_only tables (page_export sheets).
Proof.
  induction sheets as [| s rest IH]; simpl; [apply touches_only_ret |].
  frame_steps. exact IH.
Qed.

Lemma page_touches (rq : request) : touches_only (tables_of rq) (script rq).
Proof.
  unfold script. apply touches_only_bind; [apply touches_only_load_frames |].
  intros fr. destruct rq; simpl tables_of.
  - unfold page_dashboard. frame_steps.
  - unfold page_allocate. frame_steps.
  - unfold page_assign. frame_steps.
  - unfold page_expense. frame_steps. destruct a2; frame_steps.
  - apply page_approvals_touches.
  - unfold page_add_engineer. frame_steps.
  - unfold page_add_site. frame_steps.
  - apply page_export_touches.
  - apply touches_only_ret.
Qed.

(** X1: whatever the state of the document and of the lock, a run of the
    script issues writes only to the tables of its page (none for the
    dashboard, the export and a page shown without a submission; the page's
    own table or tables and the audit log otherwise), and every other table
    reads afterwards as it did before. *)
Theorem script_writes_own_tables (rq : request) (w : World) :
  let out := script rq w in
  (∀ name, name ∉ tables_of rq → peek name out.2 = peek name w) ∧
  ∃ calls, journal out.2 = (journal w ++ calls)%list ∧
           Forall (λ c, target c ∈ tables_of rq) calls.
Proof. apply page_touches. Qed.

(** * The audit trail *)

Lemma journal_two (j : list write_call) c1 c2 :
  ((j ++ [c1]) ++ [c2] = j ++ [c1] ++ [c2])%list.
Proof. by rewrite <- app_assoc. Qed.

Lemma journal_three (j : list write_call) c1 c2 c3 :
  (((j ++ [c1]) ++ [c2]) ++ [c3] = j ++ [c1; c2] ++ [c3])%list.
Proof. by rewrite <- !app_assoc. Qed.

Lemma stored_appended (df : DataFrame) (row : dict) :
  (λ r : gmap string cell, read_back <$> r) <$> rows df = rows df →
  rows (stored (concat_row df row)) = (rows df ++ [read_back <$> list_to_map row])%list.
Proof. intros Hs. simpl. by rewrite fmap_app, Hs. Qed.

Ltac audit_facts Hs :=
  sheet_lookups;
  split; [reflexivity |];
  rewrite ?journal_three, ?journal_two;
  do 4 eexists;
  split; [reflexivity |];
  split; [discriminate |];
  split; [repeat constructor; discriminate |];
  split; [reflexivity |];
  split; [reflexivity |];
  split; [reflexivity |];
  split; [reflexivity |];
  split; [reflexivity |];
  split; [reflexivity |];
  split; [reflexivity |];
  split; [simpl; lia |];
  split; [reflexivity |];
  split; [first [discriminate | intros _; apply (stored_appended _ _ Hs)]
         | first [reflexivity
                 | let H := fresh in intros H; exfalso; apply H; reflexivity]].

(** C9, as the code has it: every mutating action (fund allocation, engineer
    assignment, expense creation, approval or rejection of a listed expense,
    engineer creation, site creation) that runs to its end issues its
    primary write call or calls first and then exactly one write to the
    audit log, whose frame is the audit log followed by one entry: the entry
    carries an id drawn from the generator during the run, the current UTC
    time, the signed-in user, the name of the action and the table it was
    for.  This holds for every outcome of the lock, so also when the primary
    write timed out.  The entry reaches the table only when the audit write
    itself acquires the lock: otherwise the audit log reads as before, with
    no entry for the action. *)
Theorem one_audit_entry (rq : request) (w : World) (sheets : gmap string DataFrame) :
  file w = Workbook sheets → mutating rq w →
  let out := script rq w in
  out.1 = Ok tt ∧
  ∃ primary audit n entry,
    journal out.2 = (journal w ++ primary ++ [audit])%list ∧
    primary ≠ [] ∧
    Forall (λ c, target c ≠ "audit_log") primary ∧
    target audit = "audit_log" ∧
    rows (payload audit) = (rows (peek "audit_log" w) ++ [entry])%list ∧
    get entry "log_id" = Str (uuid_of n) ∧
    get entry "timestamp" = Str (isoformat (utc_clock w)) ∧
    get entry "user" = session_user w ∧
    get entry "action" = Str (action_name rq) ∧
    get entry "object_type" = Str (primary_table rq) ∧
    (uuid_seed w ≤ n)%nat ∧ uuid_seed out.2 = S n ∧
    (result audit = Committed →
       rows (peek "audit_log" out.2)
       = (rows (peek "audit_log" w) ++ [read_back <$> entry])%list) ∧
    (result audit ≠ Committed → peek "audit_log" out.2 = peek "audit_log" w).
Proof.
  intros Hf Hm.
  pose proof (stored_rows_peek "audit_log" w) as Hs.
  destruct rq as [| e s a n | e s b | f | [[approve k] |] | n p e r | n l s | |];
    simpl in Hm; try done.
  - destruct w as [d h o sd c u sc j]; simpl in Hf; subst.
    revert Hs. run_script. intros Hs.
    destruct o as [| [] [| [] o]]; run_script; audit_facts Hs.
  - destruct w as [d h o sd c u sc j]; simpl in Hf; subst.
    revert Hs. run_script. intros Hs.
    destruct o as [| [] [| [] o]]; run_script; audit_facts Hs.
  - destruct w as [d h o sd c u sc j]; simpl in Hf; subst.
    revert Hm Hs. run_script. intros Hok Hs.
    destruct o as [| [] [| [] [| [] o]]]; run_script; sheet_lookups;
      rewrite (reconcile_ok _ f Hok);
      destruct (first_match _ _) as [[idx r] |]; run_script; audit_facts Hs.
  - destruct Hm as (Hcols & todo & r & Hp & Hk).
    destruct (pending_rows _ _ _ _ Hp Hk) as (Hne & Hc & Hr).
    destruct (decide_expense_ok (peek "expenses" w) (get r "expense_id") approve
                (session_user w)) as (e' & He' & Hrows); [set_solver |].
    assert (require_all todo ["date"; "expense_id"; "site_id"; "engineer_id"; "amount"]
            = Ok tt) as Hreq by (apply require_all_ok; by rewrite Hc).
    destruct w as [d h o sd c u sc j]; simpl in Hf; subst.
    revert Hp He' Hs. run_script. intros Hp He' Hs.
    rewrite Hp. run_script. rewrite Hne, Hreq. run_script. rewrite Hk, He'.
    destruct approve, o as [| [] [| [] o]]; run_script; audit_facts Hs.
  - destruct w as [d h o sd c u sc j]; simpl in Hf; subst.
    revert Hs. run_script. intros Hs.
    destruct o as [| [] [| [] o]]; run_script; audit_facts Hs.
  - destruct w as [d h o sd c u sc j]; simpl in Hf; subst.
    revert Hs. run_script. intros Hs.
    destruct o as [| [] [| [] o]]; run_script; audit_facts Hs.
Qed.

Lemma contended_world_file :
  file contended_world = Workbook (sheets_of (file contended_world)).
Proof. vm_compute. reflexivity. Qed.

(** * Further properties of the pages *)

Ltac lost_write_facts :=
  sheet_lookups;
  split; [reflexivity |];
  split; [reflexivity |];
  split; [rewrite ?last_snoc; reflexivity |];
  rewrite ?elem_of_app; set_solver.

(** X5: when the lock times out on the first write of a mutating action, the
    table that write was for reads as before, the retry message is on the
    screen, and yet the run ends normally on the page's confirmation message
    (for instance "Funds allocated"): the page does not learn that its write
    was lost. *)
Theorem lost_write_still_confirmed (rq : request) (w : World)
    (sheets : gmap string DataFrame) (rest : list bool) :
  file w = Workbook sheets → mutating rq w → lock_oracle w = false :: rest →
  let out := script rq w in
  out.1 = Ok tt ∧
  peek (primary_table rq) out.2 = peek (primary_table rq) w ∧
  last (screen out.2) = confirmation rq ∧
  Error lock_message ∈ screen out.2.
Proof.
  intros Hf Hm Ho.
  destruct rq as [| e s a n | e s b | f | [[approve k] |] | n p e r | n l s | |];
    simpl in Hm; try done.
  - destruct w as [d h o sd c u sc j]; simpl in Hf, Ho; subst.
    destruct rest as [| [] o]; run_script; lost_write_facts.
  - destruct w as [d h o sd c u sc j]; simpl in Hf, Ho; subst.
    destruct rest as [| [] o]; run_script; lost_write_facts.
  - destruct w as [d h o sd c u sc j]; simpl in Hf, Ho; subst.
    revert Hm. run_script. intros Hok.
    destruct rest as [| [] [| [] o]]; run_script; sheet_lookups;
      rewrite (reconcile_ok _ f Hok);
      destruct (first_match _ _) as [[idx r] |]; run_script; lost_write_facts.
  - destruct Hm as (Hcols & todo & r & Hp & Hk).
    destruct (pending_rows _ _ _ _ Hp Hk) as (Hne & Hc & Hr).
    destruct (decide_expense_ok (peek "expenses" w) (get r "expense_id") approve
                (session_user w)) as (e' & He' & Hrows); [set_solver |].
    assert (require_all todo ["date"; "expense_id"; "site_id"; "engineer_id"; "amount"]
            = Ok tt) as Hreq by (apply require_all_ok; by rewrite Hc).
    destruct w as [d h o sd c u sc j]; simpl in Hf, Ho; subst.
    revert Hp He'. run_script. intros Hp He'.
    rewrite Hp. run_script. rewrite Hne, Hreq. run_script. rewrite Hk, He'.
    destruct approve, rest as [| [] o]; run_script; lost_write_facts.
  - destruct w as [d h o sd c u sc j]; simpl in Hf, Ho; subst.
    destruct rest as [| [] o]; run_script; lost_write_facts.
  - destruct w as [d h o sd c u sc j]; simpl in Hf, Ho; subst.
    destruct rest as [| [] o]; run_script; lost_write_facts.
Qed.

Lemma debit_first alloc f idx r b :
  rows alloc !! idx = Some r → matches f r → balance_of r = Some b →
  (∀ j rj, (j < idx)%nat → rows alloc !! j = Some rj → ¬ matches f rj) →
  columns (debit alloc f) = columns alloc ∧
  rows (debit alloc f) !! idx
  = Some (<["balance_remaining" := Num (b - amount f)%float]> r) ∧
  ∀ j, j ≠ idx → rows (debit alloc f) !! j = rows alloc !! j.
Proof.
  intros Hidx Hm Hb Hfirst.
  assert (first_match alloc f = Some (idx, r)) as E.
  { apply list_find_Some. split; [done |]. split; [by apply is_match_matches |].
    intros j rj Hj Hlt Hmj. apply (Hfirst j rj Hlt Hj). by apply is_match_matches. }
  unfold debit. rewrite E. simpl. split; [done |]. split.
  - by rewrite list_lookup_alter_eq, Hidx, Hb.
  - intros j Hne. by rewrite list_lookup_alter_ne.
Qed.

(** X6: the expense row and the allocation are written separately.  When
    only the first lock acquisition of a run times out, the expenses table
    reads as before, without the new expense, and yet the first allocation
    row that matches the expense has its balance reduced by the amount, every
    other row staying as it was. *)
Theorem debit_without_expense (f : expense_form) (w : World)
    (sheets : gmap string DataFrame) :
  file w = Workbook sheets → allocations_ok (peek "fund_allocations" w) →
  lock_oracle w = [false] →
  let alloc := peek "fund_allocations" w in
  let out := script (RecordExpense f) w in
  let alloc' := peek "fund_allocations" out.2 in
  out.1 = Ok tt ∧
  peek "expenses" out.2 = peek "expenses" w ∧
  ∀ idx r b, rows alloc !! idx = Some r → matches f r → balance_of r = Some b →
    (∀ j rj, (j < idx)%nat → rows alloc !! j = Some rj → ¬ matches f rj) →
    columns alloc' = columns alloc ∧
    rows alloc' !! idx = Some (<["balance_remaining" := Num (b - amount f)%float]> r) ∧
    ∀ j, j ≠ idx → rows alloc' !! j = rows alloc !! j.
Proof.
  intros Hf Hok Ho alloc out alloc'.
  assert (out.1 = Ok tt ∧ peek "expenses" out.2 = peek "expenses" w ∧
          alloc' = debit alloc f) as (H1 & H2 & H3).
  { subst alloc out alloc'.
    pose proof (stored_debit _ f (stored_peek "fund_allocations" w)) as Hs.
    destruct w as [d h o sd c u sc j]; simpl in Hf, Ho; subst.
    revert Hok Hs. run_script. intros Hok Hs.
    rewrite (reconcile_ok _ f Hok). unfold debit in *.
    destruct (first_match _ _) as [[idx r] |]; run_script; sheet_lookups;
      rewrite ?Hs; done. }
  split; [done |]. split; [done |]. rewrite H3. apply debit_first.
Qed.

(** X7: when the fund_allocations frame has no engineer_id column (as the
    empty frame [read_sheet] returns for an unreadable sheet), recording an
    expense raises KeyError after the expense row has been saved (the write
    of the row acquiring the lock): the expenses table reads as before
    followed by the new row, that write is the only one issued, and the
    audit log reads as before, with no entry for the expense. *)
Theorem expense_without_allocation_columns (f : expense_form) (w : World)
    (sheets : gmap string DataFrame) :
  file w = Workbook sheets → head (lock_oracle w) ≠ Some false →
  "engineer_id" ∉ columns (peek "fund_allocations" w) →
  let out := script (RecordExpense f) w in
  out.1 = Raise (KeyError "engineer_id") ∧
  (∃ created,
     rows (peek "expenses" out.2) = (rows (peek "expenses" w) ++ [created])%list ∧
     records created (uuid_of (uuid_seed w)) f) ∧
  peek "audit_log" out.2 = peek "audit_log" w ∧
  ∃ saved, journal out.2
           = (journal w ++ [{| target := "expenses"; payload := saved;
                               result := Committed |}])%list.
Proof.
  intros Hf Ho Hc.
  assert (reconcile (peek "fund_allocations" w) (eng_choice f) (site_choice f) (amount f)
          = Raise (KeyError "engineer_id")) as Hr.
  { assert (require (peek "fund_allocations" w) "engineer_id"
            = Raise (KeyError "engineer_id")) as Hreq.
    { unfold require, has_column. by rewrite bool_decide_eq_false_2. }
    unfold reconcile, first_fit, alloc_mask, require_all. by rewrite Hreq. }
  pose proof (created_fields (uuid_seed w) f) as Hfields.
  pose proof (stored_rows_peek "expenses" w) as Hs.
  destruct w as [d h o sd c u sc j]; simpl in Hf, Ho; subst.
  revert Hr Hfields Hs. run_script. intros Hr Hfields Hs.
  destruct o as [| [] o]; try done; run_script; sheet_lookups; rewrite Hr;
    sheet_lookups;
    (split; [done |]; split;
     [eexists; split; [simpl; rewrite fmap_app, Hs; reflexivity | exact Hfields]
     | split; [done | eexists; reflexivity]]).
Qed.

(** X10: when no expense is pending (no expense at all, or every one
    approved), the Approvals page shows "No pending expenses" and nothing
    else: whatever click the run carries, no write is issued and every table
    reads as before. *)
Theorem nothing_pending (click : option (bool * nat)) (w : World) (todo : DataFrame) :
  pending (peek "expenses" w) = Ok todo → rows todo = [] →
  let out := script (Approvals click) w in
  out.1 = Ok tt ∧
  screen out.2 = (screen w ++ [Info "No pending expenses"])%list ∧
  journal out.2 = journal w ∧
  ∀ name, peek name out.2 = peek name w.
Proof.
  intros Hp Hr.
  assert (is_empty todo = true) as He.
  { unfold is_empty. rewrite Hr. by destruct (columns todo). }
  destruct w as [[] h o sd c u sc j]; revert Hp; run_script; intros Hp;
    rewrite Hp; run_script; rewrite He; done.
Qed.

Lemma keeps_open_bind {A B} (m : M A) (f : A → M B) :
  keeps_open m → (∀ a, keeps_open (f a)) → keeps_open (m ≫= f).
Proof.
  intros Hm Hf w Hw. specialize (Hm w Hw). unfold mbind, M_bind.
  destruct (m w) as [[a | e] w']; simpl in *; [by apply Hf | done].
Qed.

Lemma keeps_open_pure {A} (m : M A) : (∀ w, file (m w).2 = file w) → keeps_open m.
Proof. intros H w Hw. by rewrite H. Qed.

Lemma keeps_open_read_sheet sheet_name : keeps_open (read_sheet sheet_name).
Proof. intros w Hw. by destruct w as [[] h o s c u sc j]. Qed.

Lemma keeps_open_write_sheet sheet_name df : keeps_open (write_sheet sheet_name df).
Proof. intros w Hw. by destruct w as [[] h [| [] o] s c u sc j]. Qed.

Ltac open_step :=
  lazymatch goal with
  | |- keeps_open (mbind _ _) => apply keeps_open_bind; [| intros ?]
  | |- keeps_open (read_sheet _) => apply keeps_open_read_sheet
  | |- keeps_open (write_sheet _ _) => apply keeps_open_write_sheet
  | |- keeps_open (append_row _ _) => unfold append_row
  | |- keeps_open (log _ _ _ _ _) => unfold log
  | |- keeps_open load_frames => unfold load_frames
  | |- keeps_open _ => by apply keeps_open_pure
  end.

Lemma page_export_keeps_open sheets : keeps_open (page_export sheets).
Proof.
  induction sheets as [| s rest IH]; simpl; [by apply keeps_open_pure |].
  repeat open_step. exact IH.
Qed.

Lemma script_keeps_open (rq : request) : keeps_open (script rq).
Proof.
  unfold script. apply keeps_open_bind; [repeat open_step |].
  intros fr. destruct rq.
  - unfold page_dashboard. repeat open_step.
  - unfold page_allocate. repeat open_step.
  - unfold page_assign. repeat open_step.
  - unfold page_expense. repeat open_step. destruct a2; repeat open_step.
  - unfold page_approvals. repeat open_step.
    destruct (is_empty _); repeat open_step.
    destruct click as [[approve k] |]; repeat open_step.
    destruct (rows _ !! k); repeat open_step.
    destruct approve; repeat open_step.
  - unfold page_add_engineer. repeat open_step.
  - unfold page_add_site. repeat open_step.
  - apply page_export_keeps_open.
  - by apply keeps_open_pure.
Qed.

Lemma script_missing (rq : request) (w : World) :
  file w = Missing → script rq w = script rq (set_file (Workbook initial_sheets) w).
Proof.
  intros Hf. destruct w as [d h o s c u sc j]; simpl in Hf; subst. reflexivity.
Qed.

Lemma stored_ok df : allocations_ok df → allocations_ok (stored df).
Proof.
  intros [Hc Hr]. split; [done |]. simpl. apply Forall_fmap.
  eapply Forall_impl; [exact Hr |]. intros r [b Hb]. simpl. exists b.
  unfold balance_of in *. rewrite get_read_back.
  destruct (get r "balance_remaining"); naive_solver.
Qed.

Lemma concat_allocation_ok df id e s a today notes :
  allocations_ok df → allocations_ok (concat_row df (allocation_row id e s a today notes)).
Proof.
  intros [Hc Hr]. split.
  - simpl. set_solver.
  - simpl. apply Forall_app. split; [done |]. repeat constructor.
    by exists a.
Qed.

Lemma initial_allocations_ok :
  allocations_ok
    (default empty_frame (from_sheet <$> initial_sheets !! "fund_allocations")).
Proof. apply (@bool_decide_unpack _ (allocations_ok_dec _)). vm_compute. exact I. Qed.

Lemma script_allocations_ok (rq : request) (w : World) (sheets : gmap string DataFrame) :
  file w = Workbook sheets → allocations_ok (peek "fund_allocations" w) →
  allocations_ok (peek "fund_allocations" (script rq w).2).
Proof.
  intros Hf Hok.
  destruct (decide ("fund_allocations" ∈ tables_of rq)) as [Hin | Hout].
  - destruct rq; simpl in Hin; try set_solver.
    + destruct w as [d h o sd c u sc j]; simpl in Hf; subst.
      revert Hok. run_script. intros Hok.
      destruct o as [| [] [| [] o]]; run_script; sheet_lookups;
        try done; by apply stored_ok, concat_allocation_ok.
    + destruct w as [d h o sd c u sc j]; simpl in Hf; subst.
      pose proof (stored_ok _ (debit_ok _ f Hok)) as Hok'.
      revert Hok Hok'. run_script. intros Hok Hok'.
      destruct o as [| [] [| [] [| [] o]]]; run_script; sheet_lookups;
        rewrite (reconcile_ok _ f Hok);
        destruct (first_match _ _) as [[idx r] |] eqn:E; run_script; sheet_lookups;
        done.
  - destruct (page_touches rq w) as [Hp _]. by rewrite Hp.
Qed.

(** X11: the fund_allocations table stays well-formed (the reconciler's
    columns present, every balance a number) through any sequence of runs,
    whatever the lock does, from a fresh installation or from any
    well-formed table: the reconciler therefore never raises on a document
    only the application has written. *)
Theorem allocations_stay_well_formed (rqs : list request) (w : World) :
  file w ≠ Corrupt →
  file w = Missing ∨ allocations_ok (peek "fund_allocations" w) →
  allocations_ok (peek "fund_allocations" (session rqs w)).
Proof.
  revert w. induction rqs as [| rq rqs IH]; intros w Hc Hok.
  - destruct Hok as [Hm | Hok]; [| done].
    unfold session, peek. rewrite Hm. apply initial_allocations_ok.
  - simpl. apply IH; [by apply script_keeps_open |]. right.
    destruct (file w) as [| | sheets] eqn:Hf; [| done |].
    + rewrite (script_missing rq w Hf).
      eapply script_allocations_ok; [reflexivity |].
      apply initial_allocations_ok.
    + destruct Hok as [Hm | Hok]; [done |].
      by eapply script_allocations_ok.
Qed.

(** X16: an allocation whose write acquires the lock adds one row to
    fund_allocations: the row carries a new id, the chosen engineer and site
    and the day of the run, and its balance_remaining equals its
    amount_allocated, both the amount entered. *)
Theorem allocation_starts_full (e s : cell) (a : float) (notes : string) (w : World)
    (sheets : gmap string DataFrame) :
  file w = Workbook sheets → head (lock_oracle w) ≠ Some false →
  let out := script (AllocateFunds e s a notes) w in
  out.1 = Ok tt ∧
  ∃ created,
    rows (peek "fund_allocations" out.2)
    = (rows (peek "fund_allocations" w) ++ [created])%list ∧
    get created "allocation_id" = Str (uuid_of (uuid_seed w)) ∧
    get created "engineer_id" = read_back e ∧ get created "site_id" = read_back s ∧
    get created "amount_allocated" = Num a ∧ balance_of created = Some a ∧
    get created "date_allocated" = Str (date_isoformat (utc_clock w)).
Proof.
  intros Hf Ho.
  pose proof (stored_rows_peek "fund_allocations" w) as Hs.
  pose proof (uuid_kept (uuid_seed w)) as Hid.
  pose proof (date_isoformat_kept (utc_clock w)) as Hday.
  destruct w as [d h o sd c u sc j]; simpl in Hf, Ho; subst.
  revert Hs Hid Hday. run_script. intros Hs Hid Hday.
  destruct o as [| [] [| [] o]]; try done; run_script; sheet_lookups;
    (split; [done |]; eexists;
     split; [simpl; rewrite fmap_app, Hs; reflexivity |]);
    unfold balance_of; rewrite !get_read_back;
    (split; [by rewrite <- Hid |]); (split; [done |]); (split; [done |]);
    (split; [done |]); (split; [done |]); by rewrite <- Hday.
Qed.

Lemma contended_world_oracle : lock_oracle contended_world = [false].
Proof. vm_compute. reflexivity. Qed.

Lemma contended_world_ok : allocations_ok (peek "fund_allocations" contended_world).
Proof. apply (@bool_decide_unpack _ (allocations_ok_dec _)). vm_compute. exact I. Qed.

Lemma tampered_world_file :
  file tampered_world = Workbook (sheets_of (file tampered_world)).
Proof. vm_compute. reflexivity. Qed.

Lemma tampered_world_lock_free : head (lock_oracle tampered_world) ≠ Some false.
Proof. vm_compute. discriminate. Qed.

Lemma tampered_world_columns :
  "engineer_id" ∉ columns (peek "fund_allocations" tampered_world).
Proof. apply (@bool_decide_unpack _ (not_dec _)). vm_compute. exact I. Qed.

Lemma fresh_world_pending : pending (peek "expenses" fresh_world) = Ok empty_frame.
Proof. vm_compute. reflexivity. Qed.

(** * The dashboard *)

Lemma groupby_sum_no_rows df key aggs :
  rows df = [] → key ∈ columns df → aggs.*2 ⊆ columns df →
  groupby_sum df key aggs = Ok {| columns := key :: aggs.*1; rows := [] |}.
Proof.
  intros Hr Hk Ha. unfold groupby_sum, group_keys.
  rewrite require_ok, require_all_ok by done. simpl. by rewrite Hr.
Qed.

Lemma list_bind_singleton {A} (l : list A) : (x ← l; [x]) = l.
Proof. induction l as [| x l IH]; [done |]. simpl. f_equal. apply IH. Qed.

Lemma merge_left_no_rows left right key :
  rows right = [] → key ∈ columns right → key ∈ columns left →
  merge_left left right key
  = Ok {| columns := columns left ++ filter (λ c, c ≠ key) (columns right);
          rows := rows left |}.
Proof.
  intros Hr Hk Hl. unfold merge_left. rewrite !require_ok by done. simpl.
  rewrite Hr. simpl. do 2 f_equal. apply list_bind_singleton.
Qed.

Lemma fillna_ok df c : c ∈ columns df →
  fillna df c (Num 0%float) = Ok {| columns := columns df; rows := fill c <$> rows df |}.
Proof. intros Hc. unfold fillna. by rewrite require_ok. Qed.

Lemma select_ok df cs : cs ⊆ columns df →
  select df cs = Ok {| columns := cs;
                       rows := (λ r, filter (λ kv : string * cell, kv.1 ∈ cs) r) <$> rows df |}.
Proof. intros Hc. unfold select. by rewrite require_all_ok. Qed.

Lemma get_filter_in (cs : list string) (r : gmap string cell) c :
  c ∈ cs → get (filter (λ kv : string * cell, kv.1 ∈ cs) r) c = get r c.
Proof.
  intros Hc. unfold get. destruct (r !! c) as [v |] eqn:E.
  - by rewrite (map_lookup_filter_Some_2 _ _ c v E Hc).
  - rewrite map_lookup_filter_None_2; [done |]. by left.
Qed.

Lemma get_fill_same c r : r !! c = None → get (fill c r) c = Num 0%float.
Proof.
  intros Hn. unfold fill.
  assert (get r c = NaN) as -> by (unfold get; by rewrite Hn).
  simpl. unfold get. by rewrite lookup_insert_eq.
Qed.

Lemma get_fill_other c c' r : c ≠ c' → get (fill c r) c' = get r c'.
Proof.
  intros Hne. unfold fill. destruct (is_na _); [| done].
  unfold get. by rewrite lookup_insert_ne.
Qed.

Lemma lookup_fill_other c c' r : c ≠ c' → fill c r !! c' = r !! c'.
Proof.
  intros Hne. unfold fill. destruct (is_na _); [| done]. by rewrite lookup_insert_ne.
Qed.

Lemma site_summary_no_expenses fr :
  ["site_id"; "site_name"; "location"; "status"] ⊆ columns (sites_df fr) →
  ["site_id"; "amount"] ⊆ columns (expenses_df fr) →
  rows (expenses_df fr) = [] →
  site_summary_view fr
  = Ok {| columns := ["site_id"; "site_name"; "location"; "status"; "total_spent"];
          rows := (λ r, filter (λ kv : string * cell,
                                  kv.1 ∈ ["site_id"; "site_name"; "location"; "status";
                                          "total_spent"])
                               (fill "total_spent" r)) <$> rows (sites_df fr) |}.
Proof.
  intros Hs He Hr. unfold site_summary_view.
  rewrite groupby_sum_no_rows by (done || set_solver). simpl.
  rewrite merge_left_no_rows by (done || set_solver). simpl.
  rewrite fillna_ok by (simpl; set_solver). simpl.
  rewrite select_ok by (simpl; set_solver). simpl.
  by rewrite <- list_fmap_compose.
Qed.

Lemma engineer_summary_no_rows fr :
  ["engineer_id"; "name"; "role"] ⊆ columns (engineers_df fr) →
  ["engineer_id"; "amount"] ⊆ columns (expenses_df fr) →
  ["engineer_id"; "amount_allocated"; "balance_remaining"] ⊆ columns (alloc_df fr) →
  rows (expenses_df fr) = [] → rows (alloc_df fr) = [] →
  engineer_summary_view fr
  = Ok {| columns := ["engineer_id"; "name"; "role"; "total_alloc"; "total_spent"; "balance"];
          rows := (λ r, filter (λ kv : string * cell,
                                  kv.1 ∈ ["engineer_id"; "name"; "role"; "total_alloc";
                                          "total_spent"; "balance"])
                               (fill "balance" (fill "total_alloc" (fill "total_spent" r))))
                  <$> rows (engineers_df fr) |}.
Proof.
  intros Hn He Ha Hre Hra. unfold engineer_summary_view.
  rewrite groupby_sum_no_rows by (done || set_solver). simpl.
  rewrite groupby_sum_no_rows by (done || set_solver). simpl.
  rewrite merge_left_no_rows by (done || set_solver). simpl.
  rewrite merge_left_no_rows by (done || (simpl; set_solver)). simpl.
  rewrite fillna_ok by (simpl; set_solver). simpl.
  rewrite fillna_ok by (simpl; set_solver). simpl.
  rewrite fillna_ok by (simpl; set_solver). simpl.
  rewrite select_ok by (simpl; set_solver). simpl.
  by rewrite <- !list_fmap_compose.
Qed.

Lemma script_dashboard_touches : touches_only [] (script Dashboard).
Proof.
  unfold script. apply touches_only_bind; [apply touches_only_load_frames |].
  intros fr. unfold page_dashboard. frame_steps.
Qed.

(** C8: with no expense and no allocation recorded (the two tables
    header-only), the site summary has one row per site and the engineer
    summary one row per engineer, in table order, every total being zero, and
    neither view raises; showing the dashboard writes nothing: every table
    reads afterwards as before and no write is issued. *)
Theorem dashboard_empty_tables (fr : Frames) :
  ["site_id"; "site_name"; "location"; "status"] ⊆ columns (sites_df fr) →
  ["engineer_id"; "name"; "role"] ⊆ columns (engineers_df fr) →
  ["site_id"; "engineer_id"; "amount"] ⊆ columns (expenses_df fr) →
  ["engineer_id"; "amount_allocated"; "balance_remaining"] ⊆ columns (alloc_df fr) →
  lacks (sites_df fr) ["total_spent"] →
  lacks (engineers_df fr) ["total_spent"; "total_alloc"; "balance"] →
  rows (expenses_df fr) = [] → rows (alloc_df fr) = [] →
  ∃ site_table engineer_table,
    site_summary_view fr = Ok site_table ∧
    engineer_summary_view fr = Ok engineer_table ∧
    length (rows site_table) = length (rows (sites_df fr)) ∧
    length (rows engineer_table) = length (rows (engineers_df fr)) ∧
    (∀ i r, rows (sites_df fr) !! i = Some r →
       ∃ r', rows site_table !! i = Some r' ∧
             get r' "site_id" = get r "site_id" ∧ get r' "total_spent" = Num 0%float) ∧
    (∀ i r, rows (engineers_df fr) !! i = Some r →
       ∃ r', rows engineer_table !! i = Some r' ∧
             get r' "engineer_id" = get r "engineer_id" ∧
             get r' "total_alloc" = Num 0%float ∧ get r' "total_spent" = Num 0%float ∧
             get r' "balance" = Num 0%float) ∧
    (∀ w, (page_dashboard fr w).1 = Ok tt ∧
          file (page_dashboard fr w).2 = file w ∧
          journal (page_dashboard fr w).2 = journal w ∧
          screen (page_dashboard fr w).2
          = (screen w ++ [Table site_table; Table engineer_table])%list) ∧
    (∀ w name, peek name (script Dashboard w).2 = peek name w ∧
               journal (script Dashboard w).2 = journal w).
Proof.
  intros Hs Hn He Ha Hls Hln Hre Hra.
  pose proof (site_summary_no_expenses fr Hs ltac:(set_solver) Hre) as Hsite.
  pose proof (engineer_summary_no_rows fr Hn ltac:(set_solver) Ha Hre Hra) as Heng.
  eexists _, _. split; [exact Hsite |]. split; [exact Heng |]. simpl.
  rewrite !length_fmap. split; [done |]. split; [done |].
  split; [| split; [| split]].
  - intros i r Hi. rewrite list_lookup_fmap, Hi. simpl. eexists. split; [done |].
    unfold lacks in Hls. rewrite Forall_forall in Hls.
    pose proof (Hls r (list_elem_of_lookup_2 _ _ _ Hi)) as Hr.
    apply Forall_cons in Hr as [Hts _].
    rewrite !get_filter_in by set_solver.
    rewrite get_fill_same by done. by rewrite get_fill_other.
  - intros i r Hi. rewrite list_lookup_fmap, Hi. simpl. eexists. split; [done |].
    unfold lacks in Hln. rewrite Forall_forall in Hln.
    pose proof (Hln r (list_elem_of_lookup_2 _ _ _ Hi)) as Hr.
    apply Forall_cons in Hr as [Hts Hr]. apply Forall_cons in Hr as [Hta Hr].
    apply Forall_cons in Hr as [Hb _].
    rewrite !get_filter_in by set_solver.
    split; [by rewrite !get_fill_other |].
    split; [| split].
    + rewrite get_fill_other by done. apply get_fill_same.
      by rewrite lookup_fill_other.
    + rewrite !get_fill_other by done. by apply get_fill_same.
    + apply get_fill_same. by rewrite !lookup_fill_other.
  - intros w. unfold page_dashboard. rewrite Hsite, Heng.
    destruct w. run_script. rewrite <- app_assoc. done.
  - intros w name. destruct (script_dashboard_touches w) as [Hp (calls & Hj & Hc)].
    split; [apply Hp; set_solver |].
    apply Forall_nil_inv in Hc || idtac.
    destruct calls as [| c calls]; [by rewrite app_nil_r in Hj |].
    apply Forall_cons in Hc as [Hc _]. set_solver.
Qed.

Lemma staffed_world_frames :
  let fr := frames_of staffed_world in
  (["site_id"; "site_name"; "location"; "status"] ⊆ columns (sites_df fr) ∧
   ["engineer_id"; "name"; "role"] ⊆ columns (engineers_df fr)) ∧
  (["site_id"; "engineer_id"; "amount"] ⊆ columns (expenses_df fr) ∧
   ["engineer_id"; "amount_allocated"; "balance_remaining"] ⊆ columns (alloc_df fr)) ∧
  (lacks (sites_df fr) ["total_spent"] ∧
   lacks (engineers_df fr) ["total_spent"; "total_alloc"; "balance"]) ∧
  rows (expenses_df fr) = [] ∧ rows (alloc_df fr) = [].
Proof.
  cbv zeta. unfold lacks.
  split; [split | split; [split | split; [split | split]]].
  - apply (@bool_decide_unpack _ (list_subseteq_dec _ _)); vm_compute; exact I.
  - apply (@bool_decide_unpack _ (list_subseteq_dec _ _)); vm_compute; exact I.
  - apply (@bool_decide_unpack _ (list_subseteq_dec _ _)); vm_compute; exact I.
  - apply (@bool_decide_unpack _ (list_subseteq_dec _ _)); vm_compute; exact I.
  - apply (@bool_decide_unpack _ (Forall_dec _ _)); vm_compute; exact I.
  - apply (@bool_decide_unpack _ (Forall_dec _ _)); vm_compute; exact I.
  - vm_compute; reflexivity.
  - vm_compute; reflexivity.
Qed.

Lemma summands_ok c (rs : list (gmap string cell)) :
  Forall (λ r, is_text (get r c) = false) rs →
  summands ((λ r, get r c) <$> rs) = Ok (omap (λ r, summand (get r c)) rs).
Proof.
  induction 1 as [| r rs Hr _ IH]; [done |].
  rewrite fmap_cons. cbn [summands omap list_omap]. unfold summand at 1.
  destruct (is_na (get r c)) eqn:Ena; [exact IH |].
  destruct (get r c) eqn:E; try done; cbn [as_number]; by rewrite IH.
Qed.

Lemma agg_sum_ok df key k agg :
  numeric agg.2 df →
  agg_sum df key k agg
  = Ok (agg.1, Num (total_of agg.2 (filter (λ r, get r key = k) (rows df)))).
Proof.
  intros Hn. unfold agg_sum. rewrite summands_ok; [done |].
  unfold numeric in Hn. rewrite Forall_forall in Hn. apply Forall_forall.
  intros r [_ Hr]%list_elem_of_filter. by apply Hn.
Qed.

Lemma groupby_sum_ok df key aggs :
  key ∈ columns df → aggs.*2 ⊆ columns df → Forall (λ agg, numeric agg.2 df) aggs →
  groupby_sum df key aggs
  = Ok {| columns := key :: aggs.*1; rows := group_row df key aggs <$> group_keys df key |}.
Proof.
  intros Hk Hc Hn. unfold groupby_sum.
  rewrite require_ok, require_all_ok by done. simpl.
  rewrite (mapR_ok _ (group_row df key aggs)); [done |].
  apply Forall_forall. intros k _.
  rewrite (mapR_ok _ (λ agg, (agg.1, Num (total_of agg.2
                                  (filter (λ r, get r key = k) (rows df)))))); [done |].
  eapply Forall_impl; [exact Hn |]. intros agg Ha. by apply agg_sum_ok.
Qed.

Lemma get_group_row_key df key aggs k : get (group_row df key aggs k) key = k.
Proof. unfold get, group_row. simpl. by rewrite lookup_insert_eq. Qed.

Lemma filter_group_rows df key aggs k (ks : list cell) :
  filter (λ q, get q key = k) (group_row df key aggs <$> ks)
  = group_row df key aggs <$> filter (λ k', k' = k) ks.
Proof.
  induction ks as [| k' ks IH]; [done |].
  rewrite fmap_cons, !filter_cons, IH, get_group_row_key.
  by destruct (decide (k' = k)).
Qed.

Lemma filter_eq_NoDup (k : cell) (ks : list cell) :
  NoDup ks → filter (λ k', k' = k) ks = if decide (k ∈ ks) then [k] else [].
Proof.
  induction 1 as [| k' ks Hnin _ IH].
  - destruct (decide (k ∈ [])) as [Hin |]; [inversion Hin | done].
  - rewrite filter_cons, IH.
    destruct (decide (k' = k)) as [-> |], (decide (k ∈ ks)) as [Hin | Hout],
      (decide (k ∈ _ :: ks)) as [Hin' | Hout']; try done; exfalso; set_solver.
Qed.

Lemma list_bind_fmap {A B} (h : A → B) (l : list A) : (x ← l; [h x]) = h <$> l.
Proof. induction l as [| x l IH]; [done |]. simpl. by f_equal. Qed.

Lemma merge_left_groups left df key aggs :
  key ∈ columns left →
  merge_left left {| columns := key :: aggs.*1;
                     rows := group_row df key aggs <$> group_keys df key |} key
  = Ok {| columns := columns left ++ filter (λ c, c ≠ key) (key :: aggs.*1);
          rows := joined df key aggs <$> rows left |}.
Proof.
  intros Hl. unfold merge_left. rewrite !require_ok by (done || by left). simpl.
  do 2 f_equal.
  induction (rows left) as [| r rs IH]; [done |].
  rewrite bind_cons, fmap_cons, IH.
  rewrite filter_group_rows, filter_eq_NoDup by apply NoDup_remove_dups.
  unfold joined. by destruct (decide _).
Qed.

Lemma elem_of_group_keys df key k :
  k ∈ group_keys df key ↔ is_na k = false ∧ ∃ r, r ∈ rows df ∧ get r key = k.
Proof.
  unfold group_keys. rewrite elem_of_remove_dups, list_elem_of_filter, list_elem_of_fmap.
  naive_solver.
Qed.

Lemma group_total_absent df key k c :
  k ∉ group_keys df key → group_total df key k c = 0%float.
Proof.
  intros Hn. unfold group_total. destruct (is_na k) eqn:Ek; [done |].
  assert (filter (λ r, get r key = k) (rows df) = []) as ->; [| done].
  destruct (filter _ _) as [| r rs] eqn:E; [done |].
  exfalso. apply Hn, elem_of_group_keys. split; [done |].
  assert (r ∈ filter (λ r, get r key = k) (rows df)) as Hr by (rewrite E; left).
  apply list_elem_of_filter in Hr as [Hk Hr]. eauto.
Qed.

Lemma get_joined_key df key aggs r : get (joined df key aggs r) key = get r key.
Proof.
  unfold joined. destruct (decide _) as [Hin |]; [| done].
  apply elem_of_group_keys in Hin as [Hne _].
  unfold get in *. destruct (r !! key) as [v |] eqn:E; [| done].
  by rewrite (lookup_union_Some_l _ _ _ _ E).
Qed.

Lemma get_joined_other df key aggs r c :
  c ∉ aggs.*1 → get (joined df key aggs r) c = get r c.
Proof.
  intros Hc. unfold joined. destruct (decide _) as [Hin |]; [| done].
  unfold get. destruct (decide (c = key)) as [-> |].
  - apply elem_of_group_keys in Hin as [Hne _]. unfold get in Hne.
    destruct (r !! key) as [v |] eqn:E; [| done].
    by rewrite (lookup_union_Some_l _ _ _ _ E).
  - destruct (r !! c) as [v |] eqn:E.
    + by rewrite (lookup_union_Some_l _ _ _ _ E).
    + rewrite lookup_union_r by done. rewrite lookup_delete_ne by done.
      unfold group_row. simpl. rewrite lookup_insert_ne by done.
      rewrite not_elem_of_list_to_map_1; [done |].
      rewrite <- list_fmap_compose. exact Hc.
Qed.

Lemma get_joined_total df key out c r :
  out ≠ key → r !! out = None → get r key ∈ group_keys df key →
  get (joined df key [(out, c)] r) out = Num (group_total df key (get r key) c).
Proof.
  intros Hne Hr Hin. unfold joined. rewrite decide_True by done.
  unfold get at 1. rewrite lookup_union_r by done. rewrite lookup_delete_ne by done.
  unfold group_row. simpl. rewrite lookup_insert_ne by done.
  rewrite lookup_insert_eq. simpl.
  apply elem_of_group_keys in Hin as [Hk _].
  unfold group_total. by rewrite Hk.
Qed.

Lemma get_fill (c : string) (r : gmap string cell) :
  get (fill c r) c = if is_na (get r c) then Num 0%float else get r c.
Proof.
  unfold fill. destruct (is_na (get r c)) eqn:E; [| done].
  unfold get. by rewrite lookup_insert_eq.
Qed.

(** X12: the site summary has one row per site, in table order, with the
    site's own fields and, as total_spent, the sum pandas computes over the
    amounts of all the expenses recorded for that site id, approved or not,
    taken in table order and missing amounts left out; expenses for a site id
    that no site carries show up nowhere, and a site without expenses, or
    whose sum is not a number, gets zero. *)
Theorem site_totals (fr : Frames) :
  ["site_id"; "site_name"; "location"; "status"] ⊆ columns (sites_df fr) →
  ["site_id"; "amount"] ⊆ columns (expenses_df fr) →
  numeric "amount" (expenses_df fr) →
  lacks (sites_df fr) ["total_spent"] →
  ∃ site_table,
    site_summary_view fr = Ok site_table ∧
    columns site_table = ["site_id"; "site_name"; "location"; "status"; "total_spent"] ∧
    length (rows site_table) = length (rows (sites_df fr)) ∧
    ∀ i r, rows (sites_df fr) !! i = Some r →
      ∃ r', rows site_table !! i = Some r' ∧
            get r' "site_id" = get r "site_id" ∧
            get r' "site_name" = get r "site_name" ∧
            get r' "location" = get r "location" ∧
            get r' "status" = get r "status" ∧
            get r' "total_spent"
            = Num (shown (group_total (expenses_df fr) "site_id" (get r "site_id")
                            "amount")).
Proof.
  intros Hs He Hn Hl. unfold site_summary_view.
  rewrite groupby_sum_ok by (set_solver || by repeat constructor).
  cbn [mbind Result_bind].
  rewrite merge_left_groups by set_solver. simpl.
  rewrite fillna_ok by (simpl; set_solver). simpl.
  rewrite select_ok by (simpl; set_solver). simpl.
  eexists. split; [reflexivity |]. simpl. split; [done |].
  rewrite !length_fmap. split; [done |].
  intros i r Hi. rewrite !list_lookup_fmap, Hi. simpl. eexists. split; [done |].
  unfold lacks in Hl. rewrite Forall_forall in Hl.
  pose proof (Hl r (list_elem_of_lookup_2 _ _ _ Hi)) as Hr.
  apply Forall_cons in Hr as [Hts _].
  rewrite !get_filter_in by set_solver.
  rewrite !get_fill_other by done.
  rewrite get_joined_key.
  rewrite !get_joined_other by (simpl; set_solver).
  repeat (split; [done |]).
  destruct (decide (get r "site_id" ∈ group_keys (expenses_df fr) "site_id")) as [Hin | Hout].
  - pose proof (get_joined_total (expenses_df fr) "site_id" "total_spent" "amount" r
                  ltac:(done) Hts Hin) as Ht.
    rewrite get_fill, Ht. unfold shown. simpl. by destruct (PrimFloat.is_nan _).
  - rewrite group_total_absent by done.
    apply get_fill_same. unfold joined. by rewrite decide_False.
Qed.

Lemma lookup_joined_other df key aggs r c :
  c ≠ key → c ∉ aggs.*1 → joined df key aggs r !! c = r !! c.
Proof.
  intros Hk Hc. unfold joined. destruct (decide _) as [Hin |]; [| done].
  destruct (r !! c) as [v |] eqn:E.
  - by rewrite (lookup_union_Some_l _ _ _ _ E).
  - rewrite lookup_union_r by done. rewrite lookup_delete_ne by done.
    unfold group_row. simpl. rewrite lookup_insert_ne by done.
    rewrite not_elem_of_list_to_map_1; [done |].
    rewrite <- list_fmap_compose. exact Hc.
Qed.

Lemma get_joined_agg df key aggs out c r :
  NoDup (key :: aggs.*1) → (out, c) ∈ aggs → r !! out = None →
  (if is_na (get (joined df key aggs r) out) then Num 0%float
   else get (joined df key aggs r) out)
  = Num (shown (group_total df key (get r key) c)).
Proof.
  intros Hnd Hin Hr.
  assert (out ≠ key) as Hne.
  { intros ->. apply NoDup_cons in Hnd as [Hk _]. apply Hk.
    apply list_elem_of_fmap. by exists (key, c). }
  unfold joined. destruct (decide (get r key ∈ _)) as [Hk | Hk].
  - assert (get (r ∪ delete key (group_row df key aggs (get r key))) out
            = Num (group_total df key (get r key) c)) as ->.
    { unfold get at 1. rewrite lookup_union_r by done. rewrite lookup_delete_ne by done.
      unfold group_row.
      erewrite elem_of_list_to_map_1.
      - simpl. apply elem_of_group_keys in Hk as [Hk _].
        unfold group_total. by rewrite Hk.
      - rewrite fmap_cons, <- list_fmap_compose. exact Hnd.
      - right. apply list_elem_of_fmap. by exists (out, c). }
    unfold shown. simpl. by destruct (PrimFloat.is_nan _).
  - rewrite group_total_absent by done.
    assert (get r out = NaN) as -> by (unfold get; by rewrite Hr).
    done.
Qed.

(** X13: the engineer summary has one row per engineer, in table order,
    with the sums pandas computes over the engineer's expense amounts, over
    the amounts allocated to the engineer and over the remaining balances
    (each in table order, missing values left out), each shown as zero when
    the engineer has no such row or the sum is not a number. *)
Theorem engineer_totals (fr : Frames) :
  ["engineer_id"; "name"; "role"] ⊆ columns (engineers_df fr) →
  ["engineer_id"; "amount"] ⊆ columns (expenses_df fr) →
  ["engineer_id"; "amount_allocated"; "balance_remaining"] ⊆ columns (alloc_df fr) →
  numeric "amount" (expenses_df fr) →
  numeric "amount_allocated" (alloc_df fr) → numeric "balance_remaining" (alloc_df fr) →
  lacks (engineers_df fr) ["total_spent"; "total_alloc"; "balance"] →
  ∃ engineer_table,
    engineer_summary_view fr = Ok engineer_table ∧
    columns engineer_table
    = ["engineer_id"; "name"; "role"; "total_alloc"; "total_spent"; "balance"] ∧
    length (rows engineer_table) = length (rows (engineers_df fr)) ∧
    ∀ i r, rows (engineers_df fr) !! i = Some r →
      let k := get r "engineer_id" in
      ∃ r', rows engineer_table !! i = Some r' ∧
            get r' "engineer_id" = k ∧
            get r' "name" = get r "name" ∧ get r' "role" = get r "role" ∧
            get r' "total_spent"
            = Num (shown (group_total (expenses_df fr) "engineer_id" k "amount")) ∧
            get r' "total_alloc"
            = Num (shown (group_total (alloc_df fr) "engineer_id" k "amount_allocated")) ∧
            get r' "balance"
            = Num (shown (group_total (alloc_df fr) "engineer_id" k "balance_remaining")).
Proof.
  intros Hn He Ha Hne Hna Hnb Hl. unfold engineer_summary_view.
  rewrite groupby_sum_ok by (set_solver || by repeat constructor).
  cbn [mbind Result_bind].
  rewrite groupby_sum_ok by (set_solver || by repeat constructor).
  cbn [mbind Result_bind].
  rewrite merge_left_groups by set_solver.
  cbn [mbind Result_bind].
  rewrite merge_left_groups by (simpl; set_solver).
  cbn [mbind Result_bind].
  rewrite fillna_ok by (simpl; set_solver). cbn [mbind Result_bind].
  rewrite fillna_ok by (simpl; set_solver). cbn [mbind Result_bind].
  rewrite fillna_ok by (simpl; set_solver). cbn [mbind Result_bind].
  rewrite select_ok by (simpl; set_solver).
  eexists. split; [reflexivity |]. simpl. split; [done |].
  rewrite !length_fmap. split; [done |].
  intros i r Hi. set (k := get r "engineer_id").
  rewrite !list_lookup_fmap, Hi. simpl. eexists. split; [done |].
  unfold lacks in Hl. rewrite Forall_forall in Hl.
  pose proof (Hl r (list_elem_of_lookup_2 _ _ _ Hi)) as Hr.
  apply Forall_cons in Hr as [Hts Hr]. apply Forall_cons in Hr as [Hta Hr].
  apply Forall_cons in Hr as [Hb _].
  rewrite !get_filter_in by set_solver.
  set (j1 := joined (expenses_df fr) "engineer_id" [("total_spent", "amount")] r).
  set (aggs2 := [("total_alloc", "amount_allocated"); ("balance", "balance_remaining")]).
  assert (get j1 "engineer_id" = k) as Hk1 by apply get_joined_key.
  assert (j1 !! "total_alloc" = None) as Hta1
    by (unfold j1; rewrite lookup_joined_other by (done || set_solver); done).
  assert (j1 !! "balance" = None) as Hb1
    by (unfold j1; rewrite lookup_joined_other by (done || set_solver); done).
  split; [| split; [| split; [| split; [| split]]]].
  - rewrite !get_fill_other by done. by rewrite get_joined_key.
  - rewrite !get_fill_other by done. unfold j1.
    rewrite !get_joined_other by (simpl; set_solver). done.
  - rewrite !get_fill_other by done. unfold j1.
    rewrite !get_joined_other by (simpl; set_solver). done.
  - rewrite !(get_fill_other _ "total_spent") by done. rewrite get_fill.
    rewrite (get_joined_other (alloc_df fr)) by (simpl; set_solver).
    apply (get_joined_agg (expenses_df fr) "engineer_id" [("total_spent", "amount")]);
      [| set_solver | done].
    apply (@bool_decide_unpack _ (NoDup_dec _)). vm_compute. exact I.
  - rewrite (get_fill_other "balance" "total_alloc") by done. rewrite get_fill.
    assert (∀ x, get (fill "total_spent" x) "total_alloc" = get x "total_alloc") as Hs
      by (intros x; by apply get_fill_other).
    rewrite !Hs. rewrite <- Hk1.
    apply (get_joined_agg (alloc_df fr) "engineer_id" aggs2); [| set_solver | done].
    apply (@bool_decide_unpack _ (NoDup_dec _)). vm_compute. exact I.
  - rewrite get_fill.
    assert (∀ c x, c ≠ "balance" → get (fill c x) "balance" = get x "balance") as Hs
      by (intros c x ?; by apply get_fill_other).
    rewrite !Hs by done. rewrite <- Hk1.
    apply (get_joined_agg (alloc_df fr) "engineer_id" aggs2); [| set_solver | done].
    apply (@bool_decide_unpack _ (NoDup_dec _)). vm_compute. exact I.
Qed.

Lemma page_export_spec (sheets : list string) : ∀ w,
  file w ≠ Missing →
  (page_export sheets w).1 = Ok tt ∧
  file (page_export sheets w).2 = file w ∧
  journal (page_export sheets w).2 = journal w ∧
  lock_oracle (page_export sheets w).2 = lock_oracle w ∧
  screen (page_export sheets w).2
  = (screen w ++ ((λ s, Download (s +:+ ".csv") (peek s w)) <$> sheets))%list.
Proof.
  induction sheets as [| s rest IH]; intros w Hw.
  - simpl. by rewrite app_nil_r.
  - assert (page_export (s :: rest) w
            = page_export rest (show (Download (s +:+ ".csv") (peek s w)) w)) as ->.
    { destruct w as [[] h o sd c u sc j]; done. }
    destruct (IH (show (Download (s +:+ ".csv") (peek s w)) w) Hw)
      as (H1 & H2 & H3 & H4 & H5).
    rewrite H1, H2, H3, H4, H5. simpl. rewrite <- app_assoc. done.
Qed.

(** X14: the Export page offers the seven tables of the schema for download,
    in schema order, each as [read_sheet] returns it and under the name of
    its sheet; it never raises, takes no lock and writes nothing. *)
Theorem export_reads_only (w : World) :
  let out := script Export w in
  out.1 = Ok tt ∧
  screen out.2
  = (screen w ++ ((λ s, Download (s +:+ ".csv") (peek s w)) <$> schema.*1))%list ∧
  journal out.2 = journal w ∧
  lock_oracle out.2 = lock_oracle w ∧
  file out.2 = initialized (file w) ∧
  ∀ name, peek name out.2 = peek name w.
Proof.
  assert (script Export w = page_export schema.*1 (ensure_workbook w).2) as ->.
  { destruct w as [[] h o sd c u sc j]; reflexivity. }
  assert (file (ensure_workbook w).2 ≠ Missing) as Hw
    by (destruct w as [[] h o sd c u sc j]; done).
  destruct (page_export_spec schema.*1 _ Hw) as (H1 & H2 & H3 & H4 & H5).
  cbv zeta. rewrite H1, H3, H4, H5.
  assert (∀ name, peek name (page_export schema.*1 (ensure_workbook w).2).2 = peek name w)
    as Hp.
  { intros name. unfold peek at 1. rewrite H2. fold (peek name (ensure_workbook w).2).
    apply peek_ensure_workbook. }
  split; [done |]. split.
  { destruct w as [[] h o sd c u sc j]; reflexivity. }
  split; [by destruct w as [[] h o sd c u sc j] |].
  split; [by destruct w as [[] h o sd c u sc j] |].
  split; [| exact Hp].
  rewrite H2. by destruct w as [[] h o sd c u sc j].
Qed.

(** X15: the lenient read has a price: when the expenses sheet is absent or
    the document does not open, [read_sheet] hands the dashboard a frame
    without columns and the dashboard raises KeyError on site_id before it
    shows anything. *)
Theorem dashboard_unreadable_expenses (w : World) :
  file w ≠ Missing → unreadable "expenses" (file w) →
  script Dashboard w = (Raise (KeyError "site_id"), w).
Proof.
  intros Hm Hu. destruct w as [[| | sheets] h o sd c u sc j]; simpl in Hu; try done.
  run_script. rewrite Hu. reflexivity.
Qed.

End Properties.

(** * The properties on concrete worlds *)

#[local] Existing Instance example_library.

(** C5, as the claim states it, fails: the lock times out and yet the
    document changes (it did not exist and now does), while the caller gets
    the same normal return as after a successful write. *)
Lemma write_sheet_timeout_counterexample :
  lock_oracle busy_world = [false] ∧
  (write_sheet "expenses" (header_only ["expense_id"]) busy_world).1 = Ok tt ∧
  file (write_sheet "expenses" (header_only ["expense_id"]) busy_world).2
    ≠ file busy_world.
Proof. split; [done |]. split; [done |]. discriminate. Qed.




Lemma first_fit_selection_witness :
  (script (RecordExpense expense_600) two_allocations).1 = Ok tt ∧
  balances two_allocations = [Num 500; Num 500] ∧
  balances (script (RecordExpense expense_600) two_allocations).2 = [Num (-100); Num 500].
Proof.
  split; [| split].
  - exact (proj1 (first_fit_selection expense_600 two_allocations _
                    two_allocations_file two_allocations_uncontended two_allocations_ok)).
  - vm_compute. reflexivity.
  - vm_compute. reflexivity.
Defined.

Lemma balance_after_debits_witness :
  balances (session [RecordExpense expense_600] two_allocations) = [Num (-100); Num 500].
Proof.
  pose proof (balance_after_debits [expense_600] two_allocations _
                two_allocations_file two_allocations_uncontended two_allocations_ok) as H.
  cbv zeta in H. exact (proj2 (proj2 (proj2 (proj2 H)))).
Defined.

(** C2, as the claim states it, fails: an allocation of 1.10 is debited 1.00
    and then 0.10; its balance is not the amount allocated minus the sum of
    the two debits, which is zero, but what is left after subtracting them
    one after the other in double precision, a positive amount; the
    allocation is therefore still selected, and a third expense of 0.05 is
    debited from it. *)
Lemma balance_rounding_counterexample :
  let spent := [expense_of 1; expense_of 0.1] in
  let final := session (RecordExpense <$> spent) small_allocation in
  (λ r, get r "amount_allocated") <$> rows (peek "fund_allocations" small_allocation)
  = [Num 1.1] ∧
  debits_routed (peek "fund_allocations" small_allocation) spent 0 = [1; 0.1]%float ∧
  Num (1.1 - added [1; 0.1])%float = Num 0 ∧
  balances final = [Num (1.1 - 1 - 0.1)%float] ∧
  balances final ≠ [Num (1.1 - added [1; 0.1])%float] ∧
  balances (session [RecordExpense (expense_of 0.05)] final)
  = [Num (1.1 - 1 - 0.1 - 0.05)%float].
Proof.
  cbv zeta. split; [vm_compute; reflexivity |]. split; [vm_compute; reflexivity |].
  split; [vm_compute; reflexivity |]. split; [vm_compute; reflexivity |].
  split; [| vm_compute; reflexivity].
  apply (bool_decide_eq_false_1 _). vm_compute. reflexivity.
Qed.

Lemma unallocated_expense_witness :
  (script (RecordExpense expense_unfunded) two_allocations).1 = Ok tt ∧
  balances (script (RecordExpense expense_unfunded) two_allocations).2
  = [Num 500; Num 500] ∧
  (λ r, (get r "engineer_id", get r "amount", get r "approved"))
    <$> rows (peek "expenses" (script (RecordExpense expense_unfunded) two_allocations).2)
  = [(Str "E2", Num 125.5, Bool false)].
Proof.
  split; [| split].
  - exact (proj1 (unallocated_expense expense_unfunded two_allocations _
                    two_allocations_file two_allocations_lock_free two_allocations_ok
                    expense_unfunded_no_match)).
  - vm_compute. reflexivity.
  - vm_compute. reflexivity.
Defined.

(** C4, as the claim states it, fails: an expense is created with approved =
    False, Bob rejects it, and Carol can still approve it afterwards: the
    field goes from false to true, and the expense was reviewed twice. *)
Lemma rejected_then_approved_counterexample :
  let rejected := session [Approvals (Some (false, 0%nat))] (set_user (Str "Bob") one_expense) in
  let approved := session [Approvals (Some (true, 0%nat))] (set_user (Str "Carol") rejected) in
  approval_status one_expense = [(Bool false, NaN)] ∧
  approval_status rejected = [(Bool false, Str "Bob")] ∧
  approval_status approved = [(Bool true, Str "Carol")].
Proof. vm_compute. repeat split. Qed.

Lemma approval_transitions_witness :
  (script (Approvals (Some (false, 0%nat))) one_expense).1 = Ok tt ∧
  approval_status (script (Approvals (Some (false, 0%nat))) one_expense).2
  = [(Bool false, Str "Alice <alice@example.org>")].
Proof.
  split.
  - exact (proj1 (approval_transitions false 0 one_expense _ _ _
                    one_expense_file one_expense_lock_free one_expense_columns
                    one_expense_pending one_expense_first_row)).
  - vm_compute. reflexivity.
Defined.

Lemma approvals_frame_witness :
  peek "fund_allocations" (script (Approvals (Some (false, 0%nat))) one_expense).2
  = peek "fund_allocations" one_expense ∧
  balances (script (Approvals (Some (false, 0%nat))) one_expense).2
  = [Num (-100); Num 500].
Proof.
  split.
  - exact (proj1 (approvals_frame (Some (false, 0%nat)) one_expense "fund_allocations"
                    ltac:(discriminate) ltac:(discriminate))).
  - vm_compute. reflexivity.
Defined.

Lemma one_audit_entry_witness :
  let out := script (AddSite "Depot" "Harbour road" "2024-05-01") contended_world in
  out.1 = Ok tt ∧
  rows (peek "sites" out.2) = [] ∧
  (λ r, get r "action") <$> rows (peek "audit_log" out.2)
  = [Str "allocate_funds"; Str "allocate_funds"; Str "create_site"].
Proof.
  cbv zeta. split; [| split].
  - exact (proj1 (one_audit_entry (AddSite "Depot" "Harbour road" "2024-05-01")
                    contended_world _ contended_world_file I)).
  - vm_compute. reflexivity.
  - vm_compute. reflexivity.
Defined.

(** C9, as the claim states it, fails: a site is created while another
    session takes the lock between the two writes of the run.  The site row
    is saved, the page confirms, and the audit log has no entry for it. *)
Lemma audit_entry_lost_counterexample :
  let out := script (AddSite "Depot" "Harbour road" "2024-05-01") interrupted_world in
  out.1 = Ok tt ∧
  rows (peek "sites" interrupted_world) = [] ∧
  (λ r, get r "site_name") <$> rows (peek "sites" out.2) = [Str "Depot"] ∧
  rows (peek "audit_log" interrupted_world) = [] ∧
  rows (peek "audit_log" out.2) = [] ∧
  last (screen out.2) = Some (Success "Site added").
Proof. vm_compute. repeat split. Qed.

Lemma dashboard_empty_tables_witness :
  (∃ site_table engineer_table,
     site_summary_view (frames_of staffed_world) = Ok site_table ∧
     engineer_summary_view (frames_of staffed_world) = Ok engineer_table) ∧
  match site_summary_view (frames_of staffed_world) with
  | Ok site_table =>
      (λ r, (get r "site_name", get r "total_spent")) <$> rows site_table
      = [(Str "Depot", Num 0)]
  | Raise _ => False
  end.
Proof.
  split.
  - destruct staffed_world_frames as ([H1 H2] & [H3 H4] & [H5 H6] & H7 & H8).
    destruct (dashboard_empty_tables (frames_of staffed_world) H1 H2 H3 H4 H5 H6 H7 H8)
      as (site_table & engineer_table & Hs & He & _).
    exists site_table, engineer_table. exact (conj Hs He).
  - vm_compute. reflexivity.
Defined.


Lemma lost_write_still_confirmed_witness :
  let out := script (AddSite "Depot" "Harbour road" "2024-05-01") contended_world in
  out.1 = Ok tt ∧
  rows (peek "sites" out.2) = [] ∧
  last (screen out.2) = Some (Success "Site added").
Proof.
  cbv zeta. split; [| split].
  - exact (proj1 (lost_write_still_confirmed (AddSite "Depot" "Harbour road" "2024-05-01")
                    contended_world _ [] contended_world_file I contended_world_oracle)).
  - vm_compute. reflexivity.
  - vm_compute. reflexivity.
Defined.

Lemma debit_without_expense_witness :
  let out := script (RecordExpense expense_600) contended_world in
  out.1 = Ok tt ∧
  rows (peek "expenses" out.2) = [] ∧
  balances contended_world = [Num 500; Num 500] ∧
  balances out.2 = [Num (-100); Num 500].
Proof.
  cbv zeta. split; [| split; [| split]].
  - exact (proj1 (debit_without_expense expense_600 contended_world _
                    contended_world_file contended_world_ok contended_world_oracle)).
  - vm_compute. reflexivity.
  - vm_compute. reflexivity.
  - vm_compute. reflexivity.
Defined.

Lemma expense_without_allocation_columns_witness :
  let out := script (RecordExpense expense_600) tampered_world in
  out.1 = Raise (KeyError "engineer_id") ∧
  (λ r, (get r "engineer_id", get r "amount"))
    <$> rows (peek "expenses" out.2) = [(Str "E1", Num 600)] ∧
  rows (peek "audit_log" out.2) = [].
Proof.
  cbv zeta. split; [| split].
  - exact (proj1 (expense_without_allocation_columns expense_600 tampered_world _
                    tampered_world_file tampered_world_lock_free tampered_world_columns)).
  - vm_compute. reflexivity.
  - vm_compute. reflexivity.
Defined.

Lemma nothing_pending_witness :
  (script (Approvals (Some (true, 0%nat))) fresh_world).1 = Ok tt ∧
  screen (script (Approvals (Some (true, 0%nat))) fresh_world).2
  = [Info "No pending expenses"].
Proof.
  split.
  - exact (proj1 (nothing_pending (Some (true, 0%nat)) fresh_world empty_frame
                    fresh_world_pending eq_refl)).
  - vm_compute. reflexivity.
Defined.

Lemma allocations_stay_well_formed_witness :
  allocations_ok
    (peek "fund_allocations"
       (session [AllocateFunds (Str "E1") (Str "S1") 500 "first"; RecordExpense expense_600]
          fresh_world)).
Proof.
  exact (allocations_stay_well_formed
           [AllocateFunds (Str "E1") (Str "S1") 500 "first"; RecordExpense expense_600]
           fresh_world ltac:(discriminate) (or_introl eq_refl)).
Defined.

Lemma spending_world_frames :
  let fr := frames_of spending_world in
  (["site_id"; "site_name"; "location"; "status"] ⊆ columns (sites_df fr) ∧
   ["engineer_id"; "name"; "role"] ⊆ columns (engineers_df fr)) ∧
  (["site_id"; "amount"] ⊆ columns (expenses_df fr) ∧
   ["engineer_id"; "amount"] ⊆ columns (expenses_df fr) ∧
   ["engineer_id"; "amount_allocated"; "balance_remaining"] ⊆ columns (alloc_df fr)) ∧
  (numeric "amount" (expenses_df fr) ∧ numeric "amount_allocated" (alloc_df fr) ∧
   numeric "balance_remaining" (alloc_df fr)) ∧
  lacks (sites_df fr) ["total_spent"] ∧
  lacks (engineers_df fr) ["total_spent"; "total_alloc"; "balance"].
Proof.
  cbv zeta. unfold lacks, numeric.
  split; [split | split; [split; [| split] | split; [split; [| split] | split]]].
  - apply (@bool_decide_unpack _ (list_subseteq_dec _ _)); vm_compute; exact I.
  - apply (@bool_decide_unpack _ (list_subseteq_dec _ _)); vm_compute; exact I.
  - apply (@bool_decide_unpack _ (list_subseteq_dec _ _)); vm_compute; exact I.
  - apply (@bool_decide_unpack _ (list_subseteq_dec _ _)); vm_compute; exact I.
  - apply (@bool_decide_unpack _ (list_subseteq_dec _ _)); vm_compute; exact I.
  - apply (@bool_decide_unpack _ (Forall_dec _ _)); vm_compute; exact I.
  - apply (@bool_decide_unpack _ (Forall_dec _ _)); vm_compute; exact I.
  - apply (@bool_decide_unpack _ (Forall_dec _ _)); vm_compute; exact I.
  - apply (@bool_decide_unpack _ (Forall_dec _ _)); vm_compute; exact I.
  - apply (@bool_decide_unpack _ (Forall_dec _ _)); vm_compute; exact I.
Qed.

Lemma site_totals_witness :
  (∃ site_table, site_summary_view (frames_of spending_world) = Ok site_table) ∧
  match site_summary_view (frames_of spending_world) with
  | Ok site_table =>
      (λ r, (get r "site_name", get r "total_spent")) <$> rows site_table
      = [(Str "Depot", Num 125.5)]
  | Raise _ => False
  end.
Proof.
  split.
  - destruct spending_world_frames
      as ([H1 H2] & (H3 & H4 & H5) & (H6 & H7 & H8) & H9 & H10).
    destruct (site_totals (frames_of spending_world) H1 H3 H6 H9) as (site_table & Hs & _).
    exists site_table. exact Hs.
  - vm_compute. reflexivity.
Defined.

Lemma engineer_totals_witness :
  (∃ engineer_table,
     engineer_summary_view (frames_of spending_world) = Ok engineer_table) ∧
  match engineer_summary_view (frames_of spending_world) with
  | Ok engineer_table =>
      (λ r, (get r "name", get r "total_spent", get r "total_alloc", get r "balance"))
        <$> rows engineer_table
      = [(Str "Asha", Num 125.5, Num 0, Num 0)]
  | Raise _ => False
  end.
Proof.
  split.
  - destruct spending_world_frames
      as ([H1 H2] & (H3 & H4 & H5) & (H6 & H7 & H8) & H9 & H10).
    destruct (engineer_totals (frames_of spending_world) H2 H4 H5 H6 H7 H8 H10)
      as (engineer_table & Hs & _).
    exists engineer_table. exact Hs.
  - vm_compute. reflexivity.
Defined.

Lemma dashboard_unreadable_expenses_witness :
  script Dashboard corrupt_world = (Raise (KeyError "site_id"), corrupt_world).
Proof.
  exact (dashboard_unreadable_expenses corrupt_world ltac:(discriminate) I).
Defined.

Lemma allocation_starts_full_witness :
  let out := script (AllocateFunds (Str "E1") (Str "S1") 250 "third") two_allocations in
  out.1 = Ok tt ∧
  (λ r, (get r "amount_allocated", get r "balance_remaining"))
    <$> rows (peek "fund_allocations" out.2)
  = [(Num 500, Num 500); (Num 500, Num 500); (Num 250, Num 250)].
Proof.
  cbv zeta. split.
  - exact (proj1 (allocation_starts_full (Str "E1") (Str "S1") 250 "third"
                    two_allocations _ two_allocations_file two_allocations_lock_free)).
  - vm_compute. reflexivity.
Defined.
